(** * tts-json-11labs: the batch synthesis-and-upload pipeline of [app.py]

    A shallow embedding of [synthesize_and_upload], [generate_csv_links], the
    button handler and the startup of [app.py], with the external services
    (the HTTP client, the uuid generator, the S3 client, the clock) as
    oracles, and the checked properties of the batch pipeline and of the page
    around it. *)

From Stdlib Require Import List String Ascii ZArith Lia Bool Arith.
From Stdlib Require Import Decimal DecimalString DecimalZ DecimalPos.
From Stdlib Require Import Sorting.Sorted Sorting.Permutation FinFun.
Import ListNotations.

#[local] Open Scope string_scope.
#[local] Open Scope list_scope.

(* ===================================================================== *)
(** ** Python strings *)
(* ===================================================================== *)

(** A Python [str] is a Rocq [string]; text outside ASCII is its UTF-8
    bytes, which none of the operations below looks into. *)

Module PyStr.

Definition slash : ascii := "/"%char.
Definition dquote : ascii := "034"%char.
Definition backslash : ascii := "092"%char.

(** [str(n)] for a Python [int]. *)
Definition str (n : Z) : string := NilZero.string_of_int (Z.to_int n).

(** [int(s)] on plain decimal literals, an optional [-] and ASCII digits;
    [None] is [ValueError].  Python also takes surrounding blanks, a [+],
    underscores between digits and digits outside ASCII, which no key of
    this program contains: the properties below use [int] on what [str]
    writes, where it returns as Python's does, and on strings that are empty
    or hold a letter, where Python's raises too. *)
Definition int (s : string) : option Z :=
  option_map Z.of_int (NilZero.int_of_string s).

(** [s.rstrip(c)] for a one-character set: when the rest of the string
    strips to nothing and this character is [c], it goes too. *)
Fixpoint rstrip (c : ascii) (s : string) : string :=
  match s with
  | EmptyString => EmptyString
  | String a s' =>
      match rstrip c s' with
      | EmptyString => if Ascii.eqb a c then EmptyString else String a EmptyString
      | r => String a r
      end
  end.

(** [s.startswith(p)]. *)
Definition startswith (s p : string) : bool := String.prefix p s.

(** [s.endswith(c)] for one character. *)
Fixpoint ends_with_char (c : ascii) (s : string) : bool :=
  match s with
  | EmptyString => false
  | String a EmptyString => Ascii.eqb a c
  | String _ s' => ends_with_char c s'
  end.

(** The scan of [s.replace(old, new)] for a non-empty [old]: leftmost
    occurrences, not overlapping; [skip] counts the characters of a
    matched occurrence still to pass over. *)
Fixpoint replace_scan (old new : string) (skip : nat) (s : string) : string :=
  match s with
  | EmptyString => EmptyString
  | String a s' =>
      match skip with
      | S k => replace_scan old new k s'
      | O =>
          if String.prefix old s
          then new ++ replace_scan old new (String.length old - 1) s'
          else String a (replace_scan old new 0 s')
      end
  end.

(** With an empty [old], Python puts [new] before every character and at
    the end. *)
Fixpoint intersperse (new s : string) : string :=
  match s with
  | EmptyString => new
  | String a s' => new ++ String a (intersperse new s')
  end.

Definition replace (s old new : string) : string :=
  match old with
  | EmptyString => intersperse new s
  | _ => replace_scan old new 0 s
  end.

(** Does character [c] occur in [s]? *)
Fixpoint occurs (c : ascii) (s : string) : bool :=
  match s with
  | EmptyString => false
  | String a s' => Ascii.eqb a c || occurs c s'
  end.

End PyStr.

(* ===================================================================== *)
(** ** Python dicts *)
(* ===================================================================== *)

(** A [dict] keeps its keys in insertion order, and both the CSV export and
    the JSON document read that order: an association list, assigned to as
    Python does (a key already present keeps its place and takes the new
    value). *)

Module Dict.

Definition dict (V : Type) : Type := list (string * V).

Definition empty {V} : dict V := [].

Fixpoint get {V} (d : dict V) (k : string) : option V :=
  match d with
  | [] => None
  | (k', v) :: d' => if String.eqb k' k then Some v else get d' k
  end.

(** [d[k] = v]. *)
Fixpoint set {V} (d : dict V) (k : string) (v : V) : dict V :=
  match d with
  | [] => [(k, v)]
  | (k', v') :: d' =>
      if String.eqb k' k then (k', v) :: d' else (k', v') :: set d' k v
  end.

(** [del d[k]]; the caller has checked that [k] is there. *)
Fixpoint remove {V} (d : dict V) (k : string) : dict V :=
  match d with
  | [] => []
  | (k', v') :: d' =>
      if String.eqb k' k then d' else (k', v') :: remove d' k
  end.

Definition keys {V} (d : dict V) : list string := map fst d.
Definition values {V} (d : dict V) : list V := map snd d.
Definition items {V} (d : dict V) : list (string * V) := d.

(** Truth value of a dict: non-empty. *)
Definition truthy {V} (d : dict V) : bool :=
  match d with [] => false | _ => true end.

End Dict.

Import Dict.

(* ===================================================================== *)
(** ** The world outside the script *)
(* ===================================================================== *)

Definition bytes : Type := list Byte.byte.

(** The [aws] section of the secrets, read once when the script starts. *)
Record Config : Type := {
  AWS_ACCESS_KEY : string;
  AWS_SECRET_KEY : string;
  AWS_REGION : string;
  AWS_BUCKET : string;
  S3_PREFIX : string;
  CDN_BASE : string
}.

(** What [requests.post] sends. *)
Record Payload : Type := {
  p_text : string;
  p_model_id : string;
  p_voice_settings : dict (Z * Z)      (* each setting as a fraction *)
}.

Record Request : Type := {
  rq_url : string;
  rq_headers : dict string;
  rq_json : Payload;
  rq_timeout : Z
}.

(** A [requests.Response]: [r_json] is what [response.json()] prints as,
    [None] when the body is not JSON and the call raises. *)
Record Response : Type := {
  status_code : Z;
  content : bytes;
  r_text : string;
  r_json : option string
}.

Inductive PostReply : Type :=
| Replied (r : Response)
| TransportFailed (e : string).      (* connection error, timeout, ... *)

(** The services the script calls.  Each answer may depend on how many calls
    came before and on what is sent, on nothing else. *)
Record Services : Type := {
  http_post : nat -> Request -> PostReply;
  uuid4_hex : nat -> string;
  s3_upload : nat -> string -> string -> string -> option string;
      (* local path, bucket, key; [Some e] when [upload_file] raises *)
  clock : string                       (* [datetime.now().strftime(...)] *)
}.

Inductive PyExn : Type :=
| HTTPError (r : Response)             (* requests.exceptions.HTTPError *)
| RequestException (e : string)        (* the other requests exceptions *)
| S3UploadFailedError (e : string)     (* what [upload_file] raises *)
| FileNotFoundError (path : string)     (* [os.remove] of a file not there *)
| ValueError (s : string).             (* [int] of a string that is no number *)

(** One call of the Storage Publisher. *)
Record Upload : Type := {
  up_path : string;
  up_bucket : string;
  up_key : string;
  up_body : option bytes;              (* the staged file as read *)
  up_error : option string
}.

(** What the page shows, one constructor per message of the script. *)
Inductive UiMsg : Type :=
| Loaded (n : nat)                     (* st.success "Loaded {n} paragraphs" *)
| ApiKeyRequired                       (* st.error *)
| EnterVoiceId                         (* st.warning *)
| EnterModelId                         (* st.warning *)
| Processing (index : Z)               (* st.write "Processing: slide{index}" *)
| HttpErrorFor (status index : Z)      (* st.error "HTTP Error {status} for slide{index}" *)
| ErrorDetails (detail : string)       (* st.error "Error details: {detail}" *)
| ResponseText (body : string)         (* st.error "Response: {text}" *)
| TtsErrorFor (index : Z) (e : string) (* st.error "Error generating TTS for slide{index}: {e}" *)
| DoneGenerated (n : nat)              (* st.success "Done! Generated {n} audio files ..." *)
| NoAudioGenerated                     (* st.error "No audio files were generated. ..." *)
| ErrorRaised (e : PyExn)              (* st.error "Error: {e}" *)
| Traceback (e : PyExn)                (* st.code(traceback.format_exc()) *)
| DownloadJson (data file_name : string)  (* st.download_button, application/json *)
| DownloadCsv (data file_name : string).  (* st.download_button, text/csv *)

Record World : Type := {
  w_posts : list Request;              (* synthesis calls, oldest first *)
  w_uuids : nat;                       (* uuids drawn *)
  w_temp : dict bytes;                 (* the files under temp/ *)
  w_uploads : list Upload;             (* upload calls, oldest first *)
  w_ui : list UiMsg                    (* the page, top to bottom *)
}.

Definition fresh_world : World :=
  {| w_posts := []; w_uuids := 0; w_temp := Dict.empty; w_uploads := []; w_ui := [] |}.

(* ===================================================================== *)
(** ** Statements: state and exceptions *)
(* ===================================================================== *)

Inductive outcome (A : Type) : Type :=
| Returns (a : A)
| Raises (e : PyExn).
Arguments Returns {A} a.
Arguments Raises {A} e.

Definition Py (A : Type) : Type := World -> outcome A * World.

Definition ret {A} (a : A) : Py A := fun w => (Returns a, w).

Definition bind {A B} (m : Py A) (k : A -> Py B) : Py B :=
  fun w =>
    match m w with
    | (Returns a, w') => k a w'
    | (Raises e, w') => (Raises e, w')
    end.

Definition raise {A} (e : PyExn) : Py A := fun w => (Raises e, w).

(** [try: m  except ...: h e], where [h e = None] for an exception no clause
    catches. *)
Definition try_except {A} (m : Py A) (h : PyExn -> option (Py A)) : Py A :=
  fun w =>
    match m w with
    | (Returns a, w') => (Returns a, w')
    | (Raises e, w') =>
        match h e with
        | Some handler => handler w'
        | None => (Raises e, w')
        end
    end.

Declare Scope py_scope.
Delimit Scope py_scope with py.
Notation "x <- m ;; k" := (bind m (fun x => k))
  (at level 61, m at next level, right associativity) : py_scope.
Notation "m ;; k" := (bind m (fun _ => k))
  (at level 61, right associativity) : py_scope.
#[local] Open Scope py_scope.

Section Script.

Variable cfg : Config.
Variable ext : Services.

(** *** Primitives *)

Definition st_show (m : UiMsg) : Py unit :=
  fun w => (Returns tt,
            {| w_posts := w_posts w; w_uuids := w_uuids w; w_temp := w_temp w;
               w_uploads := w_uploads w; w_ui := w_ui w ++ [m] |}).

(** [requests.post(url, headers=..., json=..., timeout=...)]. *)
Definition requests_post (rq : Request) : Py Response :=
  fun w =>
    let w' := {| w_posts := w_posts w ++ [rq]; w_uuids := w_uuids w;
                 w_temp := w_temp w; w_uploads := w_uploads w; w_ui := w_ui w |} in
    match http_post ext (List.length (w_posts w)) rq with
    | Replied r => (Returns r, w')
    | TransportFailed e => (Raises (RequestException e), w')
    end.

(** [response.raise_for_status()]: requests raises [HTTPError] for a
    client or server error status, 400 to 599, and for no other. *)
Definition error_status (status : Z) : bool :=
  (400 <=? status)%Z && (status <? 600)%Z.

Definition raise_for_status (r : Response) : Py unit :=
  if error_status (status_code r) then raise (HTTPError r) else ret tt.

(** [uuid.uuid4().hex]. *)
Definition uuid4 : Py string :=
  fun w => (Returns (uuid4_hex ext (w_uuids w)),
            {| w_posts := w_posts w; w_uuids := S (w_uuids w); w_temp := w_temp w;
               w_uploads := w_uploads w; w_ui := w_ui w |}).

(** [with open(path, "wb") as f: f.write(data)]. *)
Definition write_file (path : string) (data : bytes) : Py unit :=
  fun w => (Returns tt,
            {| w_posts := w_posts w; w_uuids := w_uuids w;
               w_temp := Dict.set (w_temp w) path data;
               w_uploads := w_uploads w; w_ui := w_ui w |}).

(** [s3.upload_file(path, bucket, key)]. *)
Definition upload_file (path bucket key : string) : Py unit :=
  fun w =>
    let err := s3_upload ext (List.length (w_uploads w)) path bucket key in
    let call := {| up_path := path; up_bucket := bucket; up_key := key;
                   up_body := Dict.get (w_temp w) path; up_error := err |} in
    let w' := {| w_posts := w_posts w; w_uuids := w_uuids w; w_temp := w_temp w;
                 w_uploads := w_uploads w ++ [call]; w_ui := w_ui w |} in
    match err with
    | None => (Returns tt, w')
    | Some e => (Raises (S3UploadFailedError e), w')
    end.

(** [os.remove(path)]. *)
Definition os_remove (path : string) : Py unit :=
  fun w =>
    match Dict.get (w_temp w) path with
    | Some _ =>
        (Returns tt,
         {| w_posts := w_posts w; w_uuids := w_uuids w;
            w_temp := Dict.remove (w_temp w) path;
            w_uploads := w_uploads w; w_ui := w_ui w |})
    | None => (Raises (FileNotFoundError path), w)
    end.

(** *** [synthesize_and_upload] *)

Definition slide_key (index : Z) : string := "slide" ++ PyStr.str index.
Definition paragraph_key (index : Z) : string :=
  "s" ++ PyStr.str index ++ "paragraph1".
Definition audio_key (index : Z) : string := "audio_url" ++ PyStr.str index.

Definition tts_request (voice_id model_id api_key text : string) : Request :=
  {| rq_url := "https://api.elevenlabs.io/v1/text-to-speech/" ++ voice_id;
     rq_headers := [("xi-api-key", api_key); ("Content-Type", "application/json")];
     rq_json := {| p_text := text; p_model_id := model_id;
                   p_voice_settings :=
                     [("stability", (1, 2)%Z); ("similarity_boost", (1, 2)%Z)] |};
     rq_timeout := 30 |}.

Definition tts_filename (hex : string) : string := "tts_" ++ hex ++ ".mp3".
(** [os.path.join("temp", filename)]. *)
Definition temp_path (filename : string) : string := "temp/" ++ filename.

Definition s3_key_of (prefix filename : string) : string :=
  PyStr.rstrip PyStr.slash prefix ++ "/" ++ filename.
Definition cdn_url_of (base s3_key : string) : string :=
  PyStr.rstrip PyStr.slash base ++ "/" ++ s3_key.

(** The dict stored under [slide_key]. *)
Definition slide_entry (index : Z) (text cdn_url voice_id model_id : string)
  : dict string :=
  Dict.set (Dict.set (Dict.set (Dict.set Dict.empty
    (paragraph_key index) text)
    (audio_key index) cdn_url)
    "voice_id" voice_id)
    "model_id" model_id.

Definition manifest : Type := dict (dict string).

(** The loop variables that outlive one iteration. *)
Record Loop : Type := { index : Z; result : manifest }.

(** The [try] block around the synthesis call; [None] is [continue]. *)
Definition synthesize (index : Z) (rq : Request) : Py (option Response) :=
  try_except
    (response <- requests_post rq ;;
     raise_for_status response ;;
     ret (Some response))
    (fun e =>
       match e with
       | HTTPError r =>
           Some (st_show (HttpErrorFor (status_code r) index) ;;
                 (* [e.response] is a Response and has [text] *)
                 match r_json r with
                 | Some detail => st_show (ErrorDetails detail)
                 | None => st_show (ResponseText (r_text r))
                 end ;;
                 ret None)
       | RequestException msg =>
           Some (st_show (TtsErrorFor index msg) ;; ret None)
       | _ => None
       end).

Definition loop_body (voice_id model_id api_key text : string) (st : Loop)
  : Py Loop :=
  st_show (Processing (index st)) ;;
  r <- synthesize (index st) (tts_request voice_id model_id api_key text) ;;
  match r with
  | None => ret st                                        (* continue *)
  | Some response =>
      hex <- uuid4 ;;
      let filename := tts_filename hex in
      let local_path := temp_path filename in
      write_file local_path (content response) ;;
      let s3_key := s3_key_of (S3_PREFIX cfg) filename in
      upload_file local_path (AWS_BUCKET cfg) s3_key ;;
      let cdn_url := cdn_url_of (CDN_BASE cfg) s3_key in
      let st' :=
        {| index := index st + 1;
           result := Dict.set (result st) (slide_key (index st))
                       (slide_entry (index st) text cdn_url voice_id model_id) |} in
      os_remove local_path ;;
      ret st'
  end.

Fixpoint for_each (voice_id model_id api_key : string) (texts : list string)
  (st : Loop) : Py Loop :=
  match texts with
  | [] => ret st
  | text :: rest =>
      st' <- loop_body voice_id model_id api_key text st ;;
      for_each voice_id model_id api_key rest st'
  end.

(** [boto3.client] and [os.makedirs("temp", exist_ok=True)] reach no
    service and change nothing the loop reads. *)
Definition synthesize_and_upload (paragraphs : dict string)
  (voice_id model_id api_key : string) : Py manifest :=
  st <- for_each voice_id model_id api_key (Dict.values paragraphs)
          {| index := 2; result := Dict.empty |} ;;
  ret (result st).

End Script.

(* ===================================================================== *)
(** ** [generate_csv_links] *)
(* ===================================================================== *)

Module Csv.

Definition CR : ascii := "013"%char.
Definition LF : ascii := "010"%char.
Definition crlf : string := String CR (String LF EmptyString).

(** The [csv.writer] of the default dialect: a field is quoted when it
    holds the delimiter, the quote character or a line break, and a quote
    inside it is written twice. *)
Definition needs_quotes (field : string) : bool :=
  PyStr.occurs ","%char field || PyStr.occurs PyStr.dquote field
  || PyStr.occurs CR field || PyStr.occurs LF field.

Fixpoint double_quotes (s : string) : string :=
  match s with
  | EmptyString => EmptyString
  | String a s' =>
      if Ascii.eqb a PyStr.dquote
      then String a (String a (double_quotes s'))
      else String a (double_quotes s')
  end.

Definition render_field (field : string) : string :=
  if needs_quotes field
  then String PyStr.dquote (double_quotes field ++ String PyStr.dquote EmptyString)
  else field.

(** The text one [writer.writerow(fields)] adds to the buffer. *)
Definition writerow (fields : list string) : string :=
  match fields with
  | [EmptyString] => String PyStr.dquote (String PyStr.dquote crlf)
  | _ => String.concat "," (map render_field fields) ++ crlf
  end.

(** The buffer after a sequence of [writerow] calls. *)
Definition written (rows : list (list string)) : string :=
  String.concat "" (map writerow rows).

End Csv.

(** [int(x.replace("slide", ""))], the sort key. *)
Definition slide_number (slide_key : string) : outcome Z :=
  let digits := PyStr.replace slide_key "slide" "" in
  match PyStr.int digits with
  | Some n => Returns n
  | None => Raises (ValueError digits)
  end.

(** [sorted(xs, key=f)]: the keys are computed first, left to right, and the
    sort is stable. *)
Fixpoint decorate (f : string -> outcome Z) (xs : list string)
  : outcome (list (Z * string)) :=
  match xs with
  | [] => Returns []
  | x :: xs' =>
      match f x with
      | Raises e => Raises e
      | Returns k =>
          match decorate f xs' with
          | Raises e => Raises e
          | Returns l => Returns ((k, x) :: l)
          end
      end
  end.

Fixpoint insert_by_key {A} (k : Z) (x : A) (l : list (Z * A)) : list (Z * A) :=
  match l with
  | [] => [(k, x)]
  | (k', y) :: l' =>
      if (k' <? k)%Z then (k', y) :: insert_by_key k x l' else (k, x) :: l
  end.

Fixpoint stable_sort {A} (l : list (Z * A)) : list (Z * A) :=
  match l with
  | [] => []
  | (k, x) :: l' => insert_by_key k x (stable_sort l')
  end.

Definition sorted (f : string -> outcome Z) (xs : list string)
  : outcome (list string) :=
  match decorate f xs with
  | Raises e => Raises e
  | Returns l => Returns (map snd (stable_sort l))
  end.

(** The inner loop: the value under the first key that starts with
    [audio_url], when there is one. *)
Fixpoint first_audio_url (slide_items : list (string * string)) : option string :=
  match slide_items with
  | [] => None
  | (key, value) :: rest =>
      if PyStr.startswith key "audio_url" then Some value
      else first_audio_url rest
  end.

(** The rows the outer loop writes, for the slide keys in sorted order. *)
Fixpoint link_rows (output : dict (dict string)) (slide_keys : list string)
  : list (list string) :=
  match slide_keys with
  | [] => []
  | slide_key :: rest =>
      match Dict.get output slide_key with
      | Some slide_data =>
          match first_audio_url (Dict.items slide_data) with
          | Some value => [value] :: link_rows output rest
          | None => link_rows output rest
          end
      | None => link_rows output rest     (* not reached: the key is one of [output]'s *)
      end
  end.

Definition generate_csv_rows (output : dict (dict string))
  : outcome (list (list string)) :=
  match sorted slide_number (Dict.keys output) with
  | Raises e => Raises e
  | Returns slide_keys => Returns (["Link"] :: link_rows output slide_keys)
  end.

Definition generate_csv_links (output : dict (dict string)) : outcome string :=
  match generate_csv_rows output with
  | Raises e => Raises e
  | Returns rows => Returns (Csv.written rows)
  end.

(* ===================================================================== *)
(** ** The JSON document *)
(* ===================================================================== *)

(** [json.dumps(output, indent=2, ensure_ascii=False)] and [json.loads], on
    the values the manifest is made of: strings and objects. *)

Module Json.

#[local] Open Scope string_scope.

#[local] Unset Elimination Schemes.
Inductive value : Type :=
| Str (s : string)
| Obj (members : list (string * value)).
#[local] Set Elimination Schemes.

Definition LF : ascii := "010"%char.
Definition CR : ascii := "013"%char.
Definition TAB : ascii := "009"%char.
Definition BS : ascii := "008"%char.
Definition FF : ascii := "012"%char.
Definition SP : ascii := " "%char.

Definition char1 (a : ascii) : string := String a EmptyString.
Definition esc (a : ascii) : string := String PyStr.backslash (char1 a).

Definition hex_digit (n : N) : ascii :=
  match n with
  | 0 => "0" | 1 => "1" | 2 => "2" | 3 => "3" | 4 => "4" | 5 => "5"
  | 6 => "6" | 7 => "7" | 8 => "8" | 9 => "9" | 10 => "a" | 11 => "b"
  | 12 => "c" | 13 => "d" | 14 => "e" | _ => "f"
  end%N%char.

(** *** Encoding *)

(** One character of a string literal: the short escapes, [\u00xx] for the
    other control characters, everything else as it is. *)
Definition escape_char (c : ascii) : string :=
  if Ascii.eqb c PyStr.dquote then esc PyStr.dquote
  else if Ascii.eqb c PyStr.backslash then esc PyStr.backslash
  else if Ascii.eqb c LF then esc "n"
  else if Ascii.eqb c CR then esc "r"
  else if Ascii.eqb c TAB then esc "t"
  else if Ascii.eqb c BS then esc "b"
  else if Ascii.eqb c FF then esc "f"
  else if (N_of_ascii c <? 32)%N
       then String PyStr.backslash
              ("u00" ++ String (hex_digit (N_of_ascii c / 16))
                               (char1 (hex_digit (N_of_ascii c mod 16))))
       else char1 c.

Fixpoint escape (s : string) : string :=
  match s with
  | EmptyString => EmptyString
  | String c s' => escape_char c ++ escape s'
  end.

Definition encode_string (s : string) : string :=
  String PyStr.dquote (escape s ++ char1 PyStr.dquote).

Fixpoint spaces (n : nat) : string :=
  match n with
  | O => EmptyString
  | S n' => String SP (spaces n')
  end.

(** A line break and the indentation of nesting depth [level]. *)
Definition newline_indent (level : nat) : string :=
  String LF (spaces (2 * level)).

(** The encoder of a dict walks its items with a [first] flag: the
    separator goes before every item but the first. *)
Fixpoint encode (level : nat) (v : value) {struct v} : string :=
  match v with
  | Str s => encode_string s
  | Obj members =>
      let body :=
        (fix items (first : bool) (ms : list (string * value)) : string :=
           match ms with
           | [] => EmptyString
           | (k, x) :: ms' =>
               (if first then EmptyString else "," ++ newline_indent (S level))
               ++ encode_string k ++ ": " ++ encode (S level) x
               ++ items false ms'
           end) true members in
      match members with
      | [] => "{}"
      | _ :: _ =>
          "{" ++ newline_indent (S level) ++ body ++ newline_indent level ++ "}"
      end
  end.

Definition dumps (v : value) : string := encode 0 v.

(** The items loop of [encode], by name. *)
Fixpoint encode_items (level : nat) (first : bool) (ms : list (string * value))
  : string :=
  match ms with
  | [] => EmptyString
  | (k, x) :: ms' =>
      (if first then EmptyString else "," ++ newline_indent (S level))
      ++ encode_string k ++ ": " ++ encode (S level) x
      ++ encode_items level false ms'
  end.

(** *** Decoding *)

Definition is_ws (c : ascii) : bool :=
  Ascii.eqb c SP || Ascii.eqb c TAB || Ascii.eqb c LF || Ascii.eqb c CR.

Fixpoint skip_ws (s : string) : string :=
  match s with
  | EmptyString => EmptyString
  | String c s' => if is_ws c then skip_ws s' else s
  end.

Definition hex_value (c : ascii) : option N :=
  let n := N_of_ascii c in
  if (48 <=? n)%N && (n <=? 57)%N then Some (n - 48)%N
  else if (97 <=? n)%N && (n <=? 102)%N then Some (n - 87)%N
  else if (65 <=? n)%N && (n <=? 70)%N then Some (n - 55)%N
  else None.

Definition hex4 (a b c d : ascii) : option N :=
  match hex_value a, hex_value b, hex_value c, hex_value d with
  | Some x, Some y, Some z, Some t => Some (((x * 16 + y) * 16 + z) * 16 + t)%N
  | _, _, _, _ => None
  end.

Definition unescape (e : ascii) : option ascii :=
  if Ascii.eqb e PyStr.dquote then Some PyStr.dquote
  else if Ascii.eqb e PyStr.backslash then Some PyStr.backslash
  else if Ascii.eqb e "/" then Some "/"%char
  else if Ascii.eqb e "n" then Some LF
  else if Ascii.eqb e "r" then Some CR
  else if Ascii.eqb e "t" then Some TAB
  else if Ascii.eqb e "b" then Some BS
  else if Ascii.eqb e "f" then Some FF
  else None.

Definition cons_char (a : ascii) (r : option (string * string))
  : option (string * string) :=
  match r with
  | Some (s, rest) => Some (String a s, rest)
  | None => None
  end.

(** The body of a string literal, after its opening quote: the decoded
    string and what follows the closing quote.  A [\u] escape is decoded
    below 128 only (one byte of UTF-8), which covers every escape the
    encoder above writes; a raw control character is an error. *)
Fixpoint scanstring (s : string) : option (string * string) :=
  match s with
  | EmptyString => None
  | String c s' =>
      if Ascii.eqb c PyStr.dquote then Some (EmptyString, s')
      else if Ascii.eqb c PyStr.backslash then
        match s' with
        | EmptyString => None
        | String e s'' =>
            if Ascii.eqb e "u" then
              match s'' with
              | String h1 (String h2 (String h3 (String h4 s3))) =>
                  match hex4 h1 h2 h3 h4 with
                  | Some n =>
                      if (n <? 128)%N then cons_char (ascii_of_N n) (scanstring s3)
                      else None
                  | None => None
                  end
              | _ => None
              end
            else
              match unescape e with
              | Some a => cons_char a (scanstring s'')
              | None => None
              end
        end
      else if (N_of_ascii c <? 32)%N then None
      else cons_char c (scanstring s')
  end.

(** A value at the head of [s], and the rest.  [fuel] bounds the number of
    values and members read. *)
Fixpoint parse_value (fuel : nat) (s : string) {struct fuel}
  : option (value * string) :=
  match fuel with
  | O => None
  | S fuel' =>
      match s with
      | EmptyString => None
      | String c s' =>
          if Ascii.eqb c PyStr.dquote then
            match scanstring s' with
            | Some (str, rest) => Some (Str str, rest)
            | None => None
            end
          else if Ascii.eqb c "{" then
            match skip_ws s' with
            | EmptyString => None
            | String c1 s1 =>
                if Ascii.eqb c1 "}" then Some (Obj [], s1)
                else parse_members fuel' [] (String c1 s1)
            end
          else None
      end
  end

(** The members of an object, from the opening quote of a key on; [acc]
    is the dict built so far, a repeated key taking its last value. *)
with parse_members (fuel : nat) (acc : dict value) (s : string) {struct fuel}
  : option (value * string) :=
  match fuel with
  | O => None
  | S fuel' =>
      match s with
      | EmptyString => None
      | String c s1 =>
          if Ascii.eqb c PyStr.dquote then
            match scanstring s1 with
            | None => None
            | Some (key, s2) =>
                match skip_ws s2 with
                | EmptyString => None
                | String c3 s3 =>
                    if Ascii.eqb c3 ":" then
                      match parse_value fuel' (skip_ws s3) with
                      | None => None
                      | Some (x, s4) =>
                          let acc' := Dict.set acc key x in
                          match skip_ws s4 with
                          | EmptyString => None
                          | String c5 s5 =>
                              if Ascii.eqb c5 "}" then Some (Obj acc', s5)
                              else if Ascii.eqb c5 ","
                                   then parse_members fuel' acc' (skip_ws s5)
                                   else None
                          end
                      end
                    else None
                end
            end
          else None
      end
  end.

(** [json.loads]: blanks, one value, blanks, end of text. *)
Definition loads (s : string) : option value :=
  match parse_value (String.length s) (skip_ws s) with
  | Some (v, rest) =>
      match skip_ws rest with
      | EmptyString => Some v
      | _ => None
      end
  | None => None
  end.

End Json.

(** The manifest as the JSON encoder sees it. *)
Definition json_of_slide (slide_data : dict string) : Json.value :=
  Json.Obj (map (fun kv => (fst kv, Json.Str (snd kv))) slide_data).

Definition json_of_manifest (output : dict (dict string)) : Json.value :=
  Json.Obj (map (fun kv => (fst kv, json_of_slide (snd kv))) output).

(** [toDocument]: the text behind the JSON download button. *)
Definition to_document (output : dict (dict string)) : string :=
  Json.dumps (json_of_manifest output).

(* ===================================================================== *)
(** ** The page: one run of the script with a file uploaded *)
(* ===================================================================== *)

(** [st.session_state]. *)
Record Session : Type := {
  tts_output : option manifest;
  tts_timestamp : option string
}.

Definition no_output : Session := {| tts_output := None; tts_timestamp := None |}.

Definition lift {A} (o : outcome A) : Py A := fun w => (o, w).

Section Page.

Variable cfg : Config.
Variable ext : Services.

(** The block under the Generate button. *)
Definition on_generate (paragraphs : dict string)
  (voice_id model_id api_key : string) : Py Session :=
  try_except
    (output <- synthesize_and_upload cfg ext paragraphs voice_id model_id api_key ;;
     if Dict.truthy output
     then st_show (DoneGenerated (List.length output)) ;;
          ret {| tts_output := Some output; tts_timestamp := Some (clock ext) |}
     else st_show NoAudioGenerated ;;
          ret no_output)
    (fun e => Some (st_show (ErrorRaised e) ;; st_show (Traceback e) ;; ret no_output)).

(** The download buttons, shown while the session holds an output. *)
Definition download_section (sess : Session) : Py unit :=
  match tts_output sess, tts_timestamp sess with
  | Some output, Some timestamp =>
      if Dict.truthy output && negb (String.eqb timestamp "")
      then st_show (DownloadJson (to_document output)
                      ("Output_data_" ++ timestamp ++ ".json")) ;;
           csv_data <- lift (generate_csv_links output) ;;
           st_show (DownloadCsv csv_data ("audio_links_" ++ timestamp ++ ".csv"))
      else ret tt
  | _, _ => ret tt
  end.

(** The [if uploaded_file:] block; [clicked] tells whether the button was
    pressed in this run. *)
Definition script_run (paragraphs : dict string)
  (api_key voice_id model_id : string) (clicked : bool) (sess : Session)
  : Py Session :=
  st_show (Loaded (List.length paragraphs)) ;;
  if String.eqb api_key "" then st_show ApiKeyRequired ;; ret sess
  else if String.eqb voice_id "" then st_show EnterVoiceId ;; ret sess
  else if String.eqb model_id "" then st_show EnterModelId ;; ret sess
  else
    sess' <- (if clicked
              then on_generate paragraphs voice_id model_id api_key
              else ret sess) ;;
    download_section sess' ;;
    ret sess'.

End Page.

(* ===================================================================== *)
(** ** Startup: the secrets and the whole script *)
(* ===================================================================== *)

(** [st.secrets] of a secrets file that is there: sections of string
    settings. *)
Definition secrets_file : Type := dict (dict string).

(** [st.secrets.get(name, {})]. *)
Definition section_or_empty (secrets : secrets_file) (name : string) : dict string :=
  match Dict.get secrets name with
  | Some section => section
  | None => Dict.empty
  end.

(** [d.get(primary) or d.get(fallback, "")]: the first setting when it is
    there and not empty, else the second, else the empty string. *)
Definition get_or_fallback (d : dict string) (primary fallback : string) : string :=
  let second := match Dict.get d fallback with Some v => v | None => EmptyString end in
  match Dict.get d primary with
  | Some v => if String.eqb v "" then second else v
  | None => second
  end.

Definition ELEVENLABS_API_KEY (secrets : secrets_file) : string :=
  get_or_fallback (section_or_empty secrets "elevenlabs") "ELEVENLABS_API_KEY" "api_key".

Definition default_voice_id (secrets : secrets_file) : string :=
  get_or_fallback (section_or_empty secrets "elevenlabs") "ELEVENLABS_VOICE_ID" "voice_id".

(** [st.secrets["aws"][name]]: the setting, or the key whose lookup raises
    [KeyError]. *)
Definition aws_setting (secrets : secrets_file) (name : string) : string + string :=
  match Dict.get secrets "aws" with
  | None => inl "aws"%string
  | Some aws =>
      match Dict.get aws name with
      | None => inl name
      | Some v => inr v
      end
  end.

(** The [try] block that reads the six AWS settings, in its order; [inl] is
    the key of the [KeyError] that the [except] clause reports before
    [st.stop()]. *)
Definition load_aws_config (secrets : secrets_file) : string + Config :=
  match aws_setting secrets "AWS_ACCESS_KEY" with
  | inl k => inl k
  | inr access =>
  match aws_setting secrets "AWS_SECRET_KEY" with
  | inl k => inl k
  | inr secret =>
  match aws_setting secrets "AWS_REGION" with
  | inl k => inl k
  | inr region =>
  match aws_setting secrets "AWS_BUCKET" with
  | inl k => inl k
  | inr bucket =>
  match aws_setting secrets "S3_PREFIX" with
  | inl k => inl k
  | inr prefix =>
  match aws_setting secrets "CDN_BASE" with
  | inl k => inl k
  | inr base =>
      inr {| AWS_ACCESS_KEY := access; AWS_SECRET_KEY := secret;
             AWS_REGION := region; AWS_BUCKET := bucket;
             S3_PREFIX := prefix; CDN_BASE := base |}
  end end end end end end.

(** One run of the whole script. *)
Inductive ScriptRun : Type :=
| Stopped (missing : string)            (* st.error "Missing AWS configuration ..."; st.stop() *)
| Rendered (r : outcome Session * World).

(** [uploaded] is the parsed upload, when a file was uploaded; [voice_entry]
    and [model_entry] are what the user typed into the two text inputs,
    [None] where the input was left at its default. *)
Definition app (secrets : secrets_file) (ext : Services)
  (uploaded : option (dict string)) (voice_entry model_entry : option string)
  (clicked : bool) (sess : Session) (w : World) : ScriptRun :=
  match load_aws_config secrets with
  | inl missing => Stopped missing
  | inr cfg =>
      let elevenlabs_api_key := ELEVENLABS_API_KEY secrets in
      let voice_id :=
        match voice_entry with Some v => v | None => default_voice_id secrets end in
      let model_id :=
        match model_entry with Some v => v | None => "eleven_multilingual_v2"%string end in
      match uploaded with
      | Some paragraphs =>
          Rendered (script_run cfg ext paragraphs elevenlabs_api_key voice_id model_id
                      clicked sess w)
      | None => Rendered (Returns sess, w)
      end
  end.

(* ===================================================================== *)
(** ** Vocabulary of the properties *)
(* ===================================================================== *)

(** The reply the [try] block lets through: the response whose bytes are
    staged and uploaded. *)
Definition accepted (reply : PostReply) : option Response :=
  match reply with
  | Replied r => if error_status (status_code r) then None else Some r
  | TransportFailed _ => None
  end.

(** What the page shows for a reply the [try] block does not let through. *)
Definition failure_report (index : Z) (reply : PostReply) : list UiMsg :=
  match reply with
  | TransportFailed e => [TtsErrorFor index e]
  | Replied r =>
      [HttpErrorFor (status_code r) index;
       match r_json r with
       | Some detail => ErrorDetails detail
       | None => ResponseText (r_text r)
       end]
  end.

(** The per-item diagnostics among the messages. *)
Definition is_item_error (m : UiMsg) : bool :=
  match m with
  | HttpErrorFor _ _ | TtsErrorFor _ _ => true
  | _ => false
  end.

(** A ManifestEntry, and the item of the manifest that holds it. *)
Record Entry : Type := {
  e_index : Z;
  e_text : string;
  e_url : string;
  e_voice : string;
  e_model : string
}.

Definition entry_item (e : Entry) : string * dict string :=
  (slide_key (e_index e),
   slide_entry (e_index e) (e_text e) (e_url e) (e_voice e) (e_model e)).

Section Vocabulary.

Variable cfg : Config.
Variable ext : Services.
Variables voice_id model_id api_key : string.

(** File name, staging path, remote key and public URL of the [j]-th
    uuid drawn. *)
Definition nth_filename (j : nat) : string := tts_filename (uuid4_hex ext j).
Definition nth_path (j : nat) : string := temp_path (nth_filename j).
Definition nth_key (j : nat) : string := s3_key_of (S3_PREFIX cfg) (nth_filename j).
Definition nth_url (j : nat) : string := cdn_url_of (CDN_BASE cfg) (nth_key j).

(** The call of the Storage Publisher in world [w], for the file staged
    under the next uuid. *)
Definition upload_call (w : World) (data : bytes) : Upload :=
  let j := w_uuids w in
  {| up_path := nth_path j; up_bucket := AWS_BUCKET cfg; up_key := nth_key j;
     up_body := Some data;
     up_error := s3_upload ext (List.length (w_uploads w))
                   (nth_path j) (AWS_BUCKET cfg) (nth_key j) |}.

(** The reply to the synthesis call for [text], made as call number [n]. *)
Definition reply_to (n : nat) (text : string) : PostReply :=
  http_post ext n (tts_request voice_id model_id api_key text).

(** The texts whose synthesis is accepted, the first being call [n]. *)
Fixpoint accepted_texts (n : nat) (texts : list string) : list string :=
  match texts with
  | [] => []
  | text :: rest =>
      match accepted (reply_to n text) with
      | Some _ => text :: accepted_texts (S n) rest
      | None => accepted_texts (S n) rest
      end
  end.

(** Entries numbered one after the other from [i], with the uuids from
    the [j]-th on. *)
Fixpoint entries_from (i : Z) (j : nat) (texts : list string) : list Entry :=
  match texts with
  | [] => []
  | text :: rest =>
      {| e_index := i; e_text := text; e_url := nth_url j;
         e_voice := voice_id; e_model := model_id |}
      :: entries_from (i + 1) (S j) rest
  end.

(** Every key of the result so far names a slide below the counter. *)
Definition keys_below (st : Loop) : Prop :=
  forall k, In k (Dict.keys (result st)) ->
    exists i, (i < index st)%Z /\ k = slide_key i.

(** The claim that numbering follows the position in the input: the item
    at position [i] (from 0), when accepted, sits under slide [i + 2]. *)
Definition numbered_by_position (paragraphs : dict string) : Prop :=
  forall output w',
    synthesize_and_upload cfg ext paragraphs voice_id model_id api_key fresh_world
    = (Returns output, w') ->
    forall i text,
      nth_error (Dict.values paragraphs) i = Some text ->
      accepted (reply_to i text) <> None ->
      exists slide_data,
        Dict.get output (slide_key (Z.of_nat i + 2)) = Some slide_data /\
        Dict.get slide_data (paragraph_key (Z.of_nat i + 2)) = Some text.

End Vocabulary.

(** The loop variables before the first iteration. *)
Definition first_loop : Loop := {| index := 2; result := Dict.empty |}.

(** Ascending by sort key. *)
Definition key_le {A} (a b : Z * A) : Prop := (fst a <= fst b)%Z.

(** The entries in the order [sorted] gives their slide keys. *)
Definition sort_entries (es : list Entry) : list Entry :=
  map snd (stable_sort (map (fun e => (e_index e, e)) es)).

(** [x], written at nesting depth [level], is read back by the decoder from
    any text it starts, given [n] units of fuel or more. *)
Definition parses (n level : nat) (x : Json.value) : Prop :=
  forall (fuel : nat) (rest : string),
    n <= fuel ->
    Json.parse_value fuel (Json.encode level x ++ rest) = Some (x, rest).

(** What follows a member in the encoded text: the next members and the
    closing brace. *)
Definition closing (level : nat) (ms : list (string * Json.value)) (rest : string)
  : string :=
  Json.encode_items level false ms ++ Json.newline_indent level ++ "}" ++ rest.

(** The number of members of all the slides together. *)
Definition total_members (output : dict (dict string)) : nat :=
  fold_right (fun kv n => List.length (snd kv) + n) 0 output.

(** No key twice, in the manifest or in any of its slides. *)
Definition distinct_keys (output : dict (dict string)) : Prop :=
  NoDup (Dict.keys output) /\ Forall (fun kv => NoDup (Dict.keys (snd kv))) output.

(** [n] copies of one character. *)
Fixpoint run_of (c : ascii) (n : nat) : string :=
  match n with
  | O => EmptyString
  | S n' => String c (run_of c n')
  end.

(** Does the string begin with a separator? *)
Definition leading_separator (s : string) : bool :=
  match s with
  | EmptyString => false
  | String c _ => Ascii.eqb c PyStr.slash
  end.

(** A 2xx status. *)
Definition is_2xx (status : Z) : bool := (200 <=? status)%Z && (status <? 300)%Z.

(** A reply that is no 2xx response: another status, or no response. *)
Definition not_2xx (reply : PostReply) : bool :=
  match reply with
  | Replied r => negb (is_2xx (status_code r))
  | TransportFailed _ => true
  end.

Section ClaimsAsStated.

Variable cfg : Config.
Variable ext : Services.
Variables voice_id model_id api_key : string.


(** The claim that an item whose reply is no 2xx response is never
    uploaded: processing it leaves the list of uploads as it was. *)
Definition no_upload_unless_2xx (paragraphs : dict string) : Prop :=
  forall pre text post st1 w1 st2 w2,
    Dict.values paragraphs = pre ++ text :: post ->
    for_each cfg ext voice_id model_id api_key pre first_loop fresh_world
    = (Returns st1, w1) ->
    not_2xx (reply_to ext voice_id model_id api_key (List.length (w_posts w1)) text)
    = true ->
    for_each cfg ext voice_id model_id api_key (pre ++ [text]) first_loop fresh_world
    = (Returns st2, w2) ->
    w_uploads w2 = w_uploads w1.

End ClaimsAsStated.

(** The world with more messages on the page. *)
Definition shown (w : World) (msgs : list UiMsg) : World :=
  {| w_posts := w_posts w; w_uuids := w_uuids w; w_temp := w_temp w;
     w_uploads := w_uploads w; w_ui := w_ui w ++ msgs |}.

(** An ASCII letter. *)
Definition ascii_letter (c : ascii) : bool :=
  ((65 <=? nat_of_ascii c)%nat && (nat_of_ascii c <=? 90)%nat)
  || ((97 <=? nat_of_ascii c)%nat && (nat_of_ascii c <=? 122)%nat).

(** Does some character of the string satisfy [p]? *)
Fixpoint any_char (p : ascii -> bool) (s : string) : bool :=
  match s with
  | EmptyString => false
  | String a s' => p a || any_char p s'
  end.

(** The download buttons among the messages. *)
Definition is_download (m : UiMsg) : bool :=
  match m with
  | DownloadJson _ _ | DownloadCsv _ _ => true
  | _ => false
  end.

(** The part of the world the services see: everything but the page. *)
Definition same_services (w1 w2 : World) : Prop :=
  w_posts w1 = w_posts w2 /\ w_uuids w1 = w_uuids w2
  /\ w_temp w1 = w_temp w2 /\ w_uploads w1 = w_uploads w2.

(** Everything of the world but the requests sent, of which only the
    number is compared. *)
Definition same_but_requests (w1 w2 : World) : Prop :=
  List.length (w_posts w1) = List.length (w_posts w2)
  /\ w_uuids w1 = w_uuids w2 /\ w_temp w1 = w_temp w2
  /\ w_uploads w1 = w_uploads w2 /\ w_ui w1 = w_ui w2.

(** The six AWS settings, in the order the script reads them. *)
Definition aws_keys : list string :=
  ["AWS_ACCESS_KEY"; "AWS_SECRET_KEY"; "AWS_REGION"; "AWS_BUCKET"; "S3_PREFIX";
   "CDN_BASE"]%string.

Section ExtraVocabulary.

Variable cfg : Config.
Variable ext : Services.
Variables voice_id model_id api_key : string.

(** The bodies of the accepted replies, the first call being call [n]. *)
Fixpoint accepted_bodies (n : nat) (texts : list string) : list bytes :=
  match texts with
  | [] => []
  | text :: rest =>
      match accepted (reply_to ext voice_id model_id api_key n text) with
      | Some r => content r :: accepted_bodies (S n) rest
      | None => accepted_bodies (S n) rest
      end
  end.

(** The upload of [data], staged under the [j]-th uuid, that went through. *)
Definition published (j : nat) (data : bytes) : Upload :=
  {| up_path := nth_path ext j; up_bucket := AWS_BUCKET cfg; up_key := nth_key cfg ext j;
     up_body := Some data; up_error := None |}.

(** The uploads of a list of bodies, staged under the uuids from the
    [j]-th on. *)
Fixpoint published_from (j : nat) (bodies : list bytes) : list Upload :=
  match bodies with
  | [] => []
  | data :: rest => published j data :: published_from (S j) rest
  end.

End ExtraVocabulary.

(** The integers [i], [i + 1], ... , [n] of them. *)
Fixpoint consecutive (i : Z) (n : nat) : list Z :=
  match n with
  | O => []
  | S n' => i :: consecutive (i + 1) n'
  end.

(** Is there a separator at position [p] of [s], with another one right
    before or right after it? *)
Definition separator_at (s : string) (p : nat) : bool :=
  match String.get p s with
  | Some c => Ascii.eqb c PyStr.slash
  | None => false
  end.

Definition doubled_separator_at (s : string) (p : nat) : bool :=
  separator_at s p
  && (match p with O => false | S q => separator_at s q end
      || separator_at s (S p)).

(** The characters of a decimal literal: digits and the sign. *)
Definition decimal_char (c : ascii) : bool :=
  Ascii.eqb c "-" || ((48 <=? nat_of_ascii c)%nat && (nat_of_ascii c <=? 57)%nat).

Fixpoint all_chars (p : ascii -> bool) (s : string) : bool :=
  match s with
  | EmptyString => true
  | String a s' => p a && all_chars p s'
  end.

(* ===================================================================== *)
(** ** Sample runs *)
(* ===================================================================== *)

Module Examples.

Definition cfg0 : Config :=
  {| AWS_ACCESS_KEY := "AKIAEXAMPLE"; AWS_SECRET_KEY := "secret";
     AWS_REGION := "us-east-1"; AWS_BUCKET := "audio-bucket";
     S3_PREFIX := "media/audio/"; CDN_BASE := "https://cdn.example.com/" |}.

(** The same, with nothing as the key prefix. *)
Definition cfg_no_prefix : Config :=
  {| AWS_ACCESS_KEY := "AKIAEXAMPLE"; AWS_SECRET_KEY := "secret";
     AWS_REGION := "us-east-1"; AWS_BUCKET := "audio-bucket";
     S3_PREFIX := ""; CDN_BASE := "https://cdn.example.com/" |}.

Definition audio : bytes := [Byte.x49; Byte.x44; Byte.x33].

Definition status_reply (status : Z) : PostReply :=
  Replied {| status_code := status; content := audio;
             r_text := "body"; r_json := None |}.

Definition hex_of (n : nat) : string :=
  run_of "a" 31 ++ String (Json.hex_digit (N.of_nat n mod 16)) EmptyString.

(** Every synthesis and every upload goes through. *)
Definition all_fine : Services :=
  {| http_post := fun _ _ => status_reply 200;
     uuid4_hex := hex_of;
     s3_upload := fun _ _ _ _ => None;
     clock := "20240101_120000" |}.

(** The second synthesis call is answered 500. *)
Definition second_rejected : Services :=
  {| http_post := fun n _ => if Nat.eqb n 1 then status_reply 500 else status_reply 200;
     uuid4_hex := hex_of;
     s3_upload := fun _ _ _ _ => None;
     clock := "20240101_120000" |}.

(** No synthesis call succeeds: 401 and timeouts in turn. *)
Definition all_rejected : Services :=
  {| http_post := fun n _ => if Nat.even n then status_reply 401
                             else TransportFailed "timed out";
     uuid4_hex := hex_of;
     s3_upload := fun _ _ _ _ => None;
     clock := "20240101_120000" |}.

(** The first upload is refused. *)
Definition first_upload_denied : Services :=
  {| http_post := fun _ _ => status_reply 200;
     uuid4_hex := hex_of;
     s3_upload := fun n _ _ _ => if Nat.eqb n 0 then Some "AccessDenied" else None;
     clock := "20240101_120000" |}.

(** Every synthesis call is answered 304. *)
Definition not_modified : Services :=
  {| http_post := fun _ _ => status_reply 304;
     uuid4_hex := hex_of;
     s3_upload := fun _ _ _ _ => None;
     clock := "20240101_120000" |}.

Definition one_paragraph : dict string := [("p1", "Hello")].
Definition two_paragraphs : dict string := [("p1", "Hello"); ("p2", "World")].
Definition two_renamed : dict string := [("intro", "Hello"); ("outro", "World")].
Definition three_paragraphs : dict string :=
  [("p1", "Hello"); ("p2", "World"); ("p3", "Again")].
Definition ten_paragraphs : dict string :=
  [("p1", "one"); ("p2", "two"); ("p3", "three"); ("p4", "four"); ("p5", "five");
   ("p6", "six"); ("p7", "seven"); ("p8", "eight"); ("p9", "nine"); ("p10", "ten")].

(** A world with a file of its own under temp/. *)
Definition with_notes : World :=
  {| w_posts := []; w_uuids := 0; w_temp := [("temp/notes.txt", [Byte.x68; Byte.x69])];
     w_uploads := []; w_ui := [] |}.

(** A session that still holds the output of an earlier run. *)
Definition stale_session : Session :=
  {| tts_output :=
       Some [("slide2", [("s2paragraph1", "Old"); ("audio_url2", "https://old/a.mp3");
                         ("voice_id", "voice"); ("model_id", "model")])];
     tts_timestamp := Some "20231231_235959" |}.

(** Entries for slides 2, 10 and 9, in this order. *)
Definition shuffled : list Entry :=
  [ {| e_index := 2; e_text := "a"; e_url := "u2"; e_voice := "v"; e_model := "m" |};
    {| e_index := 10; e_text := "b"; e_url := "u10"; e_voice := "v"; e_model := "m" |};
    {| e_index := 9; e_text := "c"; e_url := "u9"; e_voice := "v"; e_model := "m" |} ].

(** Secrets with the six AWS settings of [cfg0] and no [elevenlabs]
    section. *)
Definition secrets_without_key : secrets_file :=
  [("aws", [("AWS_ACCESS_KEY", "AKIAEXAMPLE"); ("AWS_SECRET_KEY", "secret");
            ("AWS_REGION", "us-east-1"); ("AWS_BUCKET", "audio-bucket");
            ("S3_PREFIX", "media/audio/"); ("CDN_BASE", "https://cdn.example.com/")])].

(** A run of the pipeline from a fresh world, with fixed voice, model and
    API key. *)
Abbreviation run_on cfg ext paragraphs :=
  (synthesize_and_upload cfg ext paragraphs "voice" "model" "key" fresh_world).

End Examples.

(* ===================================================================== *)
(** * Properties *)
(* ===================================================================== *)

(** ** Strings *)

Section StringFacts.

#[local] Open Scope string_scope.

Lemma append_nil_r (s : string) : s ++ "" = s.
Proof. induction s as [|a s IH]; simpl; [reflexivity | now rewrite IH]. Qed.

Lemma append_assoc (s1 s2 s3 : string) : (s1 ++ s2) ++ s3 = s1 ++ (s2 ++ s3).
Proof. induction s1 as [|a s1 IH]; simpl; [reflexivity | now rewrite IH]. Qed.

Lemma length_append (s1 s2 : string) :
  String.length (s1 ++ s2) = String.length s1 + String.length s2.
Proof. induction s1 as [|a s1 IH]; simpl; [reflexivity | now rewrite IH]. Qed.

Lemma append_inv_head (s t1 t2 : string) : s ++ t1 = s ++ t2 -> t1 = t2.
Proof.
  induction s as [|a s IH]; simpl; intros H; [assumption|].
  injection H as H. now apply IH.
Qed.

(** *** [str] and [int] *)

Lemma to_int_proper (n : Z) : Z.to_int n <> Pos Nil /\ Z.to_int n <> Neg Nil.
Proof.
  destruct n as [|p|p]; simpl; split; try discriminate;
    intros H; injection H as H; now apply (Unsigned.to_uint_nonnil p).
Qed.

Lemma int_str (n : Z) : PyStr.int (PyStr.str n) = Some n.
Proof.
  unfold PyStr.int, PyStr.str.
  destruct (to_int_proper n) as [Hp Hn].
  rewrite (NilZero.isi _ Hp Hn). simpl. now rewrite DecimalZ.of_to.
Qed.

Lemma str_inj (a b : Z) : PyStr.str a = PyStr.str b -> a = b.
Proof.
  intros H. pose proof (int_str a) as Ha. rewrite H, int_str in Ha.
  now injection Ha.
Qed.

Lemma uint_chars (d : uint) : all_chars decimal_char (NilEmpty.string_of_uint d) = true.
Proof. induction d; simpl; auto. Qed.

Lemma str_chars (n : Z) : all_chars decimal_char (PyStr.str n) = true.
Proof.
  unfold PyStr.str, NilZero.string_of_int, NilZero.string_of_uint.
  destruct (Z.to_int n) as [d|d]; destruct d; simpl; auto using uint_chars.
Qed.

Lemma str_nonempty (n : Z) : PyStr.str n <> "".
Proof.
  intros H. pose proof (int_str n) as Hi. rewrite H in Hi. discriminate.
Qed.

(** *** [replace] *)

(** Where the first character of [old] does not occur, nothing is
    replaced. *)
Lemma replace_scan_absent (c : ascii) (old new s : string) :
  PyStr.occurs c s = false ->
  PyStr.replace_scan (String c old) new 0 s = s.
Proof.
  induction s as [|a s IH]; simpl; [reflexivity|].
  intros H. apply orb_false_iff in H as [Hac Hs].
  destruct (ascii_dec c a) as [E|_].
  - subst a. rewrite Ascii.eqb_refl in Hac. discriminate.
  - now rewrite IH.
Qed.

Lemma decimal_no_s (s : string) :
  all_chars decimal_char s = true -> PyStr.occurs "s" s = false.
Proof.
  induction s as [|a s IH]; simpl; [reflexivity|].
  intros H. apply andb_true_iff in H as [Ha Hs].
  rewrite (IH Hs), orb_false_r.
  destruct (Ascii.eqb_spec a "s") as [->|]; [discriminate Ha | reflexivity].
Qed.

Lemma prefix_empty (s : string) : String.prefix "" s = true.
Proof. now destruct s. Qed.

Lemma replace_slide (n : Z) :
  PyStr.replace ("slide" ++ PyStr.str n) "slide" "" = PyStr.str n.
Proof.
  unfold PyStr.replace. simpl. rewrite prefix_empty.
  apply replace_scan_absent, decimal_no_s, str_chars.
Qed.

End StringFacts.

(** ** Dicts *)

Section DictFacts.

Context {V : Type}.
Implicit Types (d : dict V) (k : string) (v : V).

Lemma get_set_same d k v : Dict.get (Dict.set d k v) k = Some v.
Proof.
  induction d as [|[k' v'] d IH]; simpl.
  - now rewrite String.eqb_refl.
  - destruct (String.eqb k' k) eqn:E; simpl; rewrite E; [reflexivity | exact IH].
Qed.

Lemma get_absent d k : ~ In k (Dict.keys d) -> Dict.get d k = None.
Proof.
  induction d as [|[k' v'] d IH]; simpl; intros H; [reflexivity|].
  destruct (String.eqb_spec k' k) as [->|_]; [exfalso; auto | apply IH; auto].
Qed.

Lemma set_fresh d k v : ~ In k (Dict.keys d) -> Dict.set d k v = d ++ [(k, v)].
Proof.
  induction d as [|[k' v'] d IH]; simpl; intros H; [reflexivity|].
  destruct (String.eqb_spec k' k) as [->|_]; [exfalso; auto|].
  now rewrite IH by auto.
Qed.

Lemma remove_set d k v : Dict.remove (Dict.set d k v) k = Dict.remove d k.
Proof.
  induction d as [|[k' v'] d IH]; simpl.
  - now rewrite String.eqb_refl.
  - destruct (String.eqb k' k) eqn:E; simpl; rewrite E; [reflexivity | now rewrite IH].
Qed.

Lemma remove_absent d k : ~ In k (Dict.keys d) -> Dict.remove d k = d.
Proof.
  induction d as [|[k' v'] d IH]; simpl; intros H; [reflexivity|].
  destruct (String.eqb_spec k' k) as [->|_]; [exfalso; auto|].
  now rewrite IH by auto.
Qed.

(** In a dict without repeated keys, an item is found under its key. *)
Lemma get_In d k v :
  NoDup (Dict.keys d) -> In (k, v) d -> Dict.get d k = Some v.
Proof.
  induction d as [|[k' v'] d IH]; simpl; intros Hnd Hin; [contradiction|].
  inversion Hnd as [|? ? Hk' Hnd']; subst.
  destruct Hin as [E|Hin].
  - injection E as -> ->. now rewrite String.eqb_refl.
  - destruct (String.eqb_spec k' k) as [->|_].
    + exfalso. apply Hk'. change k with (fst (k, v)). now apply in_map.
    + now apply IH.
Qed.

End DictFacts.

(** ** Keys of the manifest *)

Section KeyFacts.

#[local] Open Scope string_scope.

Lemma slide_key_inj (a b : Z) : slide_key a = slide_key b -> a = b.
Proof.
  unfold slide_key. intros H. apply append_inv_head in H. now apply str_inj.
Qed.

Lemma slide_number_slide_key (n : Z) : slide_number (slide_key n) = Returns n.
Proof.
  unfold slide_number, slide_key. now rewrite replace_slide, int_str.
Qed.

(** The dict of one slide, written out: four keys, in this order. *)
Lemma slide_entry_items (i : Z) (text cdn_url voice_id model_id : string) :
  slide_entry i text cdn_url voice_id model_id =
  [(paragraph_key i, text); (audio_key i, cdn_url);
   ("voice_id", voice_id); ("model_id", model_id)]%list.
Proof. reflexivity. Qed.

Lemma slide_entry_keys_NoDup (i : Z) (text cdn_url voice_id model_id : string) :
  NoDup (Dict.keys (slide_entry i text cdn_url voice_id model_id)).
Proof.
  rewrite slide_entry_items. unfold paragraph_key, audio_key. simpl.
  repeat constructor; simpl; intuition discriminate.
Qed.

Lemma first_audio_url_slide_entry (i : Z) (text cdn_url voice_id model_id : string) :
  first_audio_url (Dict.items (slide_entry i text cdn_url voice_id model_id))
  = Some cdn_url.
Proof.
  rewrite slide_entry_items. unfold Dict.items, first_audio_url, PyStr.startswith.
  unfold paragraph_key, audio_key. simpl. now rewrite prefix_empty.
Qed.

End KeyFacts.

(** ** One iteration of the loop *)

Section Iteration.

Variable cfg : Config.
Variable ext : Services.
Variables voice_id model_id api_key : string.

Abbreviation request := (tts_request voice_id model_id api_key).
Abbreviation body := (loop_body cfg ext voice_id model_id api_key).
Abbreviation reply := (reply_to ext voice_id model_id api_key).
Abbreviation path := (nth_path ext).
Abbreviation key := (nth_key cfg ext).
Abbreviation url := (nth_url cfg ext).

(** A synthesis that is not accepted: the request is sent, the failure is
    shown, and nothing else happens; the loop variables are as before. *)
Lemma loop_body_rejected (text : string) (st : Loop) (w : World) :
  accepted (reply (List.length (w_posts w)) text) = None ->
  body text st w =
  (Returns st,
   {| w_posts := w_posts w ++ [request text];
      w_uuids := w_uuids w;
      w_temp := w_temp w;
      w_uploads := w_uploads w;
      w_ui := (w_ui w ++ [Processing (index st)])
              ++ failure_report (index st) (reply (List.length (w_posts w)) text) |}).
Proof.
  unfold accepted, reply_to, loop_body, synthesize, bind, try_except,
    requests_post, raise_for_status, st_show, ret, raise. simpl.
  destruct (http_post ext (List.length (w_posts w)) (request text)) as [r|e]; simpl.
  - destruct (error_status (status_code r)); [|discriminate]. intros _. simpl.
    destruct (r_json r); simpl; now rewrite <- !app_assoc.
  - intros _. now rewrite <- !app_assoc.
Qed.

(** An accepted synthesis whose upload goes through. *)
Lemma loop_body_published (text : string) (st : Loop) (w : World) (r : Response) :
  accepted (reply (List.length (w_posts w)) text) = Some r ->
  up_error (upload_call cfg ext w (content r)) = None ->
  body text st w =
  (Returns {| index := index st + 1;
              result := Dict.set (result st) (slide_key (index st))
                          (slide_entry (index st) text (url (w_uuids w))
                             voice_id model_id) |},
   {| w_posts := w_posts w ++ [request text];
      w_uuids := S (w_uuids w);
      w_temp := Dict.remove (w_temp w) (path (w_uuids w));
      w_uploads := w_uploads w ++ [upload_call cfg ext w (content r)];
      w_ui := w_ui w ++ [Processing (index st)] |}).
Proof.
  unfold accepted, reply_to, upload_call. simpl.
  unfold loop_body, synthesize, bind, try_except, requests_post,
    raise_for_status, st_show, ret, raise, uuid4, write_file, upload_file,
    os_remove. simpl.
  destruct (http_post ext (List.length (w_posts w)) (request text)) as [r'|e];
    [|discriminate].
  destruct (error_status (status_code r')); [discriminate|].
  intros [= ->] Hup. simpl.
  fold (nth_filename ext (w_uuids w)). fold (path (w_uuids w)).
  fold (key (w_uuids w)). rewrite get_set_same, Hup. simpl.
  now rewrite get_set_same, remove_set.
Qed.

(** An accepted synthesis whose upload fails: the exception leaves the
    loop body, after the file was staged and before anything removes it. *)
Lemma loop_body_upload_failed (text : string) (st : Loop) (w : World)
  (r : Response) (e : string) :
  accepted (reply (List.length (w_posts w)) text) = Some r ->
  up_error (upload_call cfg ext w (content r)) = Some e ->
  body text st w =
  (Raises (S3UploadFailedError e),
   {| w_posts := w_posts w ++ [request text];
      w_uuids := S (w_uuids w);
      w_temp := Dict.set (w_temp w) (path (w_uuids w)) (content r);
      w_uploads := w_uploads w ++ [upload_call cfg ext w (content r)];
      w_ui := w_ui w ++ [Processing (index st)] |}).
Proof.
  unfold accepted, reply_to, upload_call. simpl.
  unfold loop_body, synthesize, bind, try_except, requests_post,
    raise_for_status, st_show, ret, raise, uuid4, write_file, upload_file,
    os_remove. simpl.
  destruct (http_post ext (List.length (w_posts w)) (request text)) as [r'|e'];
    [|discriminate].
  destruct (error_status (status_code r')); [discriminate|].
  intros [= ->] Hup. simpl.
  fold (nth_filename ext (w_uuids w)). fold (path (w_uuids w)).
  fold (key (w_uuids w)). now rewrite get_set_same, Hup.
Qed.

End Iteration.

(** ** The loop *)

Section Loop.

Variable cfg : Config.
Variable ext : Services.
Variables voice_id model_id api_key : string.

Abbreviation request := (tts_request voice_id model_id api_key).
Abbreviation body := (loop_body cfg ext voice_id model_id api_key).
Abbreviation loop := (for_each cfg ext voice_id model_id api_key).
Abbreviation reply := (reply_to ext voice_id model_id api_key).
Abbreviation accepted_of := (accepted_texts ext voice_id model_id api_key).
Abbreviation entries := (entries_from cfg ext voice_id model_id).

Lemma for_each_cons (text : string) (rest : list string) (st : Loop) (w : World) :
  loop (text :: rest) st w =
  match body text st w with
  | (Returns st1, w1) => loop rest st1 w1
  | (Raises e, w1) => (Raises e, w1)
  end.
Proof. reflexivity. Qed.

Lemma for_each_app (pre post : list string) (st : Loop) (w : World) :
  loop (pre ++ post) st w =
  match loop pre st w with
  | (Returns st1, w1) => loop post st1 w1
  | (Raises e, w1) => (Raises e, w1)
  end.
Proof.
  revert st w. induction pre as [|text pre IH]; intros st w; [reflexivity|].
  rewrite <- app_comm_cons, !for_each_cons.
  destruct (body text st w) as [[st1|e] w1]; [apply IH | reflexivity].
Qed.

Lemma keys_below_step (st : Loop) (slide_data : dict string) :
  keys_below st ->
  Dict.set (result st) (slide_key (index st)) slide_data
  = result st ++ [(slide_key (index st), slide_data)]
  /\ keys_below {| index := index st + 1;
                   result := Dict.set (result st) (slide_key (index st)) slide_data |}.
Proof.
  intros Hb.
  assert (Hfresh : ~ In (slide_key (index st)) (Dict.keys (result st))).
  { intros Hin. destruct (Hb _ Hin) as (i & Hlt & E).
    apply slide_key_inj in E. lia. }
  split; [now apply set_fresh|].
  intros k. simpl. rewrite (set_fresh _ _ _ Hfresh). unfold Dict.keys.
  rewrite map_app, in_app_iff. simpl. intros [Hin|[<-|[]]].
  - destruct (Hb _ Hin) as (i & Hlt & E). exists i. split; [lia | exact E].
  - exists (index st). split; [lia | reflexivity].
Qed.

(** A run of the loop that returns: the result grows by one entry per
    accepted text, numbered one after the other from the counter on; every
    text was sent for synthesis once, in order; one file was staged,
    uploaded and removed per accepted text. *)
Lemma for_each_returns (texts : list string) :
  forall (st st' : Loop) (w w' : World),
    keys_below st ->
    loop texts st w = (Returns st', w') ->
    let acc := accepted_of (List.length (w_posts w)) texts in
    result st' = result st ++ map entry_item (entries (index st) (w_uuids w) acc)
    /\ index st' = (index st + Z.of_nat (List.length acc))%Z
    /\ keys_below st'
    /\ w_posts w' = w_posts w ++ map request texts
    /\ w_uuids w' = w_uuids w + List.length acc
    /\ List.length (w_uploads w') = List.length (w_uploads w) + List.length acc
    /\ (w_temp w = [] -> w_temp w' = []).
Proof.
  induction texts as [|text rest IH]; intros st st' w w' Hb Hrun; simpl.
  - injection Hrun as <- <-. rewrite !app_nil_r, Z.add_0_r, !Nat.add_0_r.
    repeat split; auto.
  - rewrite for_each_cons in Hrun.
    destruct (accepted (reply (List.length (w_posts w)) text)) as [r|] eqn:Hacc.
    + destruct (up_error (upload_call cfg ext w (content r))) as [e|] eqn:Hup.
      * rewrite (loop_body_upload_failed cfg ext _ _ _ text st w r e Hacc Hup) in Hrun.
        discriminate.
      * rewrite (loop_body_published cfg ext _ _ _ text st w r Hacc Hup) in Hrun.
        destruct (keys_below_step st
                    (slide_entry (index st) text (nth_url cfg ext (w_uuids w))
                       voice_id model_id) Hb) as [Hset Hb1].
        apply IH in Hrun; [|exact Hb1]. simpl in Hrun.
        rewrite length_app, Nat.add_1_r in Hrun. simpl in Hrun.
        destruct Hrun as (Hres & Hidx & Hb' & Hposts & Huu & Hupl & Htemp).
        rewrite Hset, <- app_assoc in Hres.
        rewrite length_app in Hupl. simpl in Hupl.
        rewrite <- app_assoc in Hposts.
        repeat split; try assumption; simpl List.length; try lia.
        intros E. apply Htemp. now rewrite E.
    + rewrite (loop_body_rejected cfg ext _ _ _ text st w Hacc) in Hrun.
      apply IH in Hrun; [|exact Hb]. simpl in Hrun.
      rewrite length_app, Nat.add_1_r in Hrun. simpl in Hrun.
      destruct Hrun as (Hres & Hidx & Hb' & Hposts & Huu & Hupl & Htemp).
      rewrite <- app_assoc in Hposts.
      repeat split; assumption.
Qed.

End Loop.

(** ** Manifests as lists of entries *)

Section Entries.

Variable cfg : Config.
Variable ext : Services.
Variables voice_id model_id : string.

Abbreviation entries := (entries_from cfg ext voice_id model_id).

Lemma consecutive_bounds (n : nat) : forall (i x : Z),
  In x (consecutive i n) -> (i <= x < i + Z.of_nat n)%Z.
Proof.
  induction n as [|n IH]; intros i x; simpl; [contradiction|].
  intros [<-|Hin]; [lia|]. apply IH in Hin. lia.
Qed.

Lemma consecutive_sorted (n : nat) : forall i : Z,
  StronglySorted Z.lt (consecutive i n).
Proof.
  induction n as [|n IH]; intros i; simpl; constructor; [apply IH|].
  apply Forall_forall. intros x Hin. apply consecutive_bounds in Hin. lia.
Qed.

Lemma sorted_NoDup (l : list Z) : StronglySorted Z.lt l -> NoDup l.
Proof.
  induction 1 as [|x l Hs IH Hall]; constructor; [|exact IH].
  intros Hin. rewrite Forall_forall in Hall. specialize (Hall _ Hin). lia.
Qed.

Lemma entries_from_index (texts : list string) : forall (i : Z) (j : nat),
  map e_index (entries i j texts) = consecutive i (List.length texts).
Proof.
  induction texts as [|t ts IH]; intros i j; simpl; [reflexivity|].
  now rewrite IH.
Qed.

Lemma entries_from_length (texts : list string) (i : Z) (j : nat) :
  List.length (entries i j texts) = List.length texts.
Proof.
  rewrite <- (length_map e_index), entries_from_index.
  revert i. induction (List.length texts) as [|n IH]; intros i; simpl; auto.
Qed.

Lemma entries_from_text (texts : list string) : forall (i : Z) (j : nat),
  map e_text (entries i j texts) = texts.
Proof.
  induction texts as [|t ts IH]; intros i j; simpl; [reflexivity|].
  now rewrite IH.
Qed.

(** The [k]-th entry: index, text and uuid all advance together. *)
Lemma entries_from_nth (texts : list string) : forall (i : Z) (j k : nat) (t : string),
  nth_error texts k = Some t ->
  nth_error (entries i j texts) k =
  Some {| e_index := i + Z.of_nat k; e_text := t; e_url := nth_url cfg ext (j + k);
          e_voice := voice_id; e_model := model_id |}.
Proof.
  induction texts as [|t0 ts IH]; intros i j k t; destruct k as [|k]; simpl;
    try discriminate.
  - intros [= ->]. now rewrite Z.add_0_r, Nat.add_0_r.
  - intros H. rewrite (IH _ _ _ _ H).
    replace (i + 1 + Z.of_nat k)%Z with (i + Z.of_nat (S k))%Z by lia.
    now replace (S j + k) with (j + S k) by lia.
Qed.

Lemma manifest_keys (es : list Entry) :
  Dict.keys (map entry_item es) = map slide_key (map e_index es).
Proof. unfold Dict.keys. now rewrite !map_map. Qed.

Lemma manifest_keys_NoDup (es : list Entry) :
  NoDup (map e_index es) -> NoDup (Dict.keys (map entry_item es)).
Proof.
  rewrite manifest_keys. apply Injective_map_NoDup.
  intros a b. apply slide_key_inj.
Qed.

Lemma manifest_get (es : list Entry) (e : Entry) :
  NoDup (map e_index es) -> In e es ->
  Dict.get (map entry_item es) (slide_key (e_index e))
  = Some (slide_entry (e_index e) (e_text e) (e_url e) (e_voice e) (e_model e)).
Proof.
  intros Hnd Hin. apply get_In; [now apply manifest_keys_NoDup|].
  change (In (entry_item e) (map entry_item es)). now apply in_map.
Qed.

End Entries.

(** ** The pipeline *)

Section Pipeline.

Variable cfg : Config.
Variable ext : Services.
Variables voice_id model_id api_key : string.

Abbreviation request := (tts_request voice_id model_id api_key).
Abbreviation loop := (for_each cfg ext voice_id model_id api_key).
Abbreviation run paragraphs :=
  (synthesize_and_upload cfg ext paragraphs voice_id model_id api_key).
Abbreviation reply := (reply_to ext voice_id model_id api_key).
Abbreviation accepted_of := (accepted_texts ext voice_id model_id api_key).
Abbreviation entries := (entries_from cfg ext voice_id model_id).

Lemma run_unfold (paragraphs : dict string) (w : World) :
  run paragraphs w =
  match loop (Dict.values paragraphs) first_loop w with
  | (Returns st, w') => (Returns (result st), w')
  | (Raises e, w') => (Raises e, w')
  end.
Proof. reflexivity. Qed.

Lemma first_loop_keys_below : keys_below first_loop.
Proof. intros k []. Qed.

(** The manifest of a run that returns, and its trace. *)
Lemma run_returns (paragraphs : dict string) (output : manifest) (w w' : World) :
  run paragraphs w = (Returns output, w') ->
  let acc := accepted_of (List.length (w_posts w)) (Dict.values paragraphs) in
  output = map entry_item (entries 2 (w_uuids w) acc)
  /\ w_posts w' = w_posts w ++ map request (Dict.values paragraphs)
  /\ List.length (w_uploads w') = List.length (w_uploads w) + List.length acc
  /\ (w_temp w = [] -> w_temp w' = []).
Proof.
  rewrite run_unfold.
  destruct (loop (Dict.values paragraphs) first_loop w) as [[st|e] w1] eqn:Hloop;
    [|discriminate].
  intros [= <- <-].
  destruct (for_each_returns cfg ext _ _ _ _ _ _ _ _ first_loop_keys_below Hloop)
    as (Hres & _ & _ & Hposts & _ & Hupl & Htemp).
  simpl in Hres. auto.
Qed.

(** A loop that raises stopped at one text: everything before it went
    through, its synthesis was accepted, its upload failed, and nothing
    after it was sent for synthesis. *)
Lemma for_each_raises (texts : list string) :
  forall (st : Loop) (w w' : World) (e : PyExn),
    loop texts st w = (Raises e, w') ->
    exists msg pre text post r st1 w1,
      e = S3UploadFailedError msg
      /\ texts = pre ++ text :: post
      /\ loop pre st w = (Returns st1, w1)
      /\ accepted (reply (List.length (w_posts w1)) text) = Some r
      /\ up_error (upload_call cfg ext w1 (content r)) = Some msg
      /\ w_posts w' = w_posts w ++ map request (pre ++ [text])
      /\ Dict.get (w_temp w') (nth_path ext (w_uuids w1)) = Some (content r).
Proof.
  induction texts as [|text rest IH]; intros st w w' e Hrun; [discriminate|].
  rewrite for_each_cons in Hrun.
  destruct (accepted (reply (List.length (w_posts w)) text)) as [r|] eqn:Hacc.
  - destruct (up_error (upload_call cfg ext w (content r))) as [msg|] eqn:Hup.
    + rewrite (loop_body_upload_failed cfg ext _ _ _ text st w r msg Hacc Hup) in Hrun.
      injection Hrun as <- <-.
      exists msg, [], text, rest, r, st, w. simpl.
      repeat split; auto using get_set_same.
    + rewrite (loop_body_published cfg ext _ _ _ text st w r Hacc Hup) in Hrun.
      apply IH in Hrun as (msg & pre & t & post & r' & st1 & w1 & He & Ht & Hpre & Ha & Hu & Hp & Hf).
      exists msg, (text :: pre), t, post, r', st1, w1.
      rewrite for_each_cons, (loop_body_published cfg ext _ _ _ text st w r Hacc Hup).
      simpl in Hp. rewrite <- app_assoc in Hp. subst rest. repeat split; auto.
  - rewrite (loop_body_rejected cfg ext _ _ _ text st w Hacc) in Hrun.
    apply IH in Hrun as (msg & pre & t & post & r' & st1 & w1 & He & Ht & Hpre & Ha & Hu & Hp & Hf).
    exists msg, (text :: pre), t, post, r', st1, w1.
    rewrite for_each_cons, (loop_body_rejected cfg ext _ _ _ text st w Hacc).
    simpl in Hp. rewrite <- app_assoc in Hp. subst rest. repeat split; auto.
Qed.


End Pipeline.

(** ** Sorting the slide keys *)

Section Sorting.

Context {A : Type}.
Implicit Types (l : list (Z * A)) (k : Z) (x : A).

Lemma insert_by_key_perm k x l : Permutation (insert_by_key k x l) ((k, x) :: l).
Proof.
  induction l as [|[k' y] l IH]; simpl; [reflexivity|].
  destruct (k' <? k)%Z; [|reflexivity].
  rewrite IH. apply perm_swap.
Qed.

Lemma stable_sort_perm l : Permutation (stable_sort l) l.
Proof.
  induction l as [|[k x] l IH]; simpl; [reflexivity|].
  rewrite insert_by_key_perm. now constructor.
Qed.

Lemma insert_by_key_sorted k x l :
  StronglySorted key_le l -> StronglySorted key_le (insert_by_key k x l).
Proof.
  induction 1 as [|[k' y] l Hs IH Hall]; simpl.
  - repeat constructor.
  - destruct (Z.ltb_spec k' k) as [Hlt|Hge].
    + constructor; [exact IH|].
      apply (Permutation_Forall (x := (k, x) :: l)).
      * symmetry. apply insert_by_key_perm.
      * constructor; [unfold key_le; simpl; lia | exact Hall].
    + constructor; [now constructor|].
      constructor; [unfold key_le; simpl; lia|].
      eapply Forall_impl; [|exact Hall].
      intros [k2 z]. unfold key_le. simpl. lia.
Qed.

Lemma stable_sort_sorted l : StronglySorted key_le (stable_sort l).
Proof.
  induction l as [|[k x] l IH]; simpl; [constructor|].
  now apply insert_by_key_sorted.
Qed.

(** A list already in order is left as it is. *)
Lemma stable_sort_id l : StronglySorted key_le l -> stable_sort l = l.
Proof.
  induction 1 as [|[k x] l Hs IH Hall]; simpl; [reflexivity|].
  rewrite IH. destruct l as [|[k' y] l']; simpl; [reflexivity|].
  inversion Hall as [|? ? Hk _]; subst. unfold key_le in Hk. simpl in Hk.
  destruct (Z.ltb_spec k' k); [lia | reflexivity].
Qed.

End Sorting.

Section SortingPayload.

Context {A B : Type} (f : A -> B).

Abbreviation relabel := (map (fun p : Z * A => (fst p, f (snd p)))).

Lemma insert_by_key_map (k : Z) (x : A) (l : list (Z * A)) :
  insert_by_key k (f x) (relabel l) = relabel (insert_by_key k x l).
Proof.
  induction l as [|[k' y] l IH]; simpl; [reflexivity|].
  destruct (k' <? k)%Z; simpl; [now rewrite IH | reflexivity].
Qed.

(** The order depends on the sort keys only, not on what they label. *)
Lemma stable_sort_map (l : list (Z * A)) :
  stable_sort (relabel l) = relabel (stable_sort l).
Proof.
  induction l as [|[k x] l IH]; simpl; [reflexivity|].
  now rewrite IH, insert_by_key_map.
Qed.

End SortingPayload.

(** ** The link list *)

Section LinkList.

Lemma decorate_slide_keys (es : list Entry) :
  decorate slide_number (map (fun e => slide_key (e_index e)) es)
  = Returns (map (fun e => (e_index e, slide_key (e_index e))) es).
Proof.
  induction es as [|e es IH]; simpl; [reflexivity|].
  now rewrite slide_number_slide_key, IH.
Qed.

Lemma sort_entries_perm (es : list Entry) : Permutation (sort_entries es) es.
Proof.
  unfold sort_entries. rewrite stable_sort_perm, map_map. simpl.
  now rewrite map_id.
Qed.

Lemma sort_entries_sorted (es : list Entry) :
  StronglySorted Z.le (map e_index (sort_entries es)).
Proof.
  unfold sort_entries.
  pose proof (stable_sort_sorted (map (fun e => (e_index e, e)) es)) as Hs.
  assert (Hfst : Forall (fun p : Z * Entry => fst p = e_index (snd p))
                   (stable_sort (map (fun e => (e_index e, e)) es))).
  { apply (Permutation_Forall (x := map (fun e => (e_index e, e)) es)).
    - symmetry. apply stable_sort_perm.
    - apply Forall_forall. intros p Hin. apply in_map_iff in Hin as (e & <- & _).
      reflexivity. }
  induction Hs as [|p l Hs IH Hall]; simpl; constructor.
  - apply IH. now inversion Hfst.
  - inversion Hfst as [|? ? Hp Hl]; subst.
    rewrite Forall_forall in *. intros i Hin.
    apply in_map_iff in Hin as (e & <- & Hin).
    apply in_map_iff in Hin as (q & <- & Hq).
    specialize (Hall _ Hq). unfold key_le in Hall.
    rewrite <- Hp, <- (Hl _ Hq). exact Hall.
Qed.

Lemma sort_entries_id (es : list Entry) :
  StronglySorted Z.lt (map e_index es) -> sort_entries es = es.
Proof.
  intros Hs. unfold sort_entries. rewrite stable_sort_id.
  - rewrite map_map. simpl. apply map_id.
  - induction es as [|e es IH]; simpl; constructor.
    + apply IH. now inversion Hs.
    + inversion Hs as [|? ? _ Hall]; subst.
      rewrite Forall_forall in *. intros p Hin.
      apply in_map_iff in Hin as (e' & <- & Hin).
      unfold key_le. simpl.
      assert (e_index e < e_index e')%Z by (apply Hall; now apply in_map).
      lia.
Qed.

Lemma link_rows_entries (es l : list Entry) :
  NoDup (map e_index es) -> incl l es ->
  link_rows (map entry_item es) (map (fun e => slide_key (e_index e)) l)
  = map (fun e => [e_url e]) l.
Proof.
  intros Hnd. induction l as [|e l IH]; intros Hincl; simpl; [reflexivity|].
  rewrite (manifest_get es e Hnd) by (apply Hincl; now left).
  rewrite first_audio_url_slide_entry, IH; [reflexivity|].
  intros x Hx. apply Hincl. now right.
Qed.

(** The rows of the link list of any manifest of entries with distinct
    slide numbers: the header, then one row per entry, by slide number. *)
Lemma csv_rows_of_entries (es : list Entry) :
  NoDup (map e_index es) ->
  generate_csv_rows (map entry_item es)
  = Returns (["Link"%string] :: map (fun e => [e_url e]) (sort_entries es)).
Proof.
  intros Hnd. unfold generate_csv_rows, sorted.
  rewrite manifest_keys, map_map, decorate_slide_keys.
  replace (map (fun e => (e_index e, slide_key (e_index e))) es)
    with (map (fun p : Z * Entry => (fst p, slide_key (e_index (snd p))))
            (map (fun e => (e_index e, e)) es))
    by (now rewrite map_map).
  rewrite (stable_sort_map (fun e => slide_key (e_index e))), map_map. simpl.
  rewrite <- (map_map snd (fun e => slide_key (e_index e))).
  fold (sort_entries es).
  rewrite link_rows_entries; [reflexivity | exact Hnd |].
  intros e He. eapply Permutation_in; [apply sort_entries_perm | exact He].
Qed.

End LinkList.

(** ** The JSON document read back *)

Section JsonFacts.

#[local] Open Scope string_scope.

Lemma scanstring_escape_char (c : ascii) (t : string) :
  Json.scanstring (Json.escape_char c ++ t) = Json.cons_char c (Json.scanstring t).
Proof. destruct c as [[|] [|] [|] [|] [|] [|] [|] [|]]; reflexivity. Qed.

(** A string literal is read back as the string it encodes. *)
Lemma scanstring_escape (s rest : string) :
  Json.scanstring (Json.escape s ++ String PyStr.dquote rest) = Some (s, rest).
Proof.
  induction s as [|c s IH]; simpl.
  - reflexivity.
  - now rewrite append_assoc, scanstring_escape_char, IH.
Qed.

Lemma encode_string_unfold (s rest : string) :
  Json.encode_string s ++ rest
  = String PyStr.dquote (Json.escape s ++ String PyStr.dquote rest).
Proof. unfold Json.encode_string, Json.char1. simpl. now rewrite append_assoc. Qed.

Lemma skip_ws_spaces (n : nat) (s : string) :
  Json.skip_ws (Json.spaces n ++ s) = Json.skip_ws s.
Proof. induction n as [|n IH]; simpl; auto. Qed.

Lemma skip_ws_newline_indent (level : nat) (s : string) :
  Json.skip_ws (Json.newline_indent level ++ s) = Json.skip_ws s.
Proof. unfold Json.newline_indent. simpl. apply skip_ws_spaces. Qed.

Lemma encode_items_fix (level : nat) (ms : list (string * Json.value)) (b : bool) :
  (fix items (first : bool) (ms : list (string * Json.value)) : string :=
     match ms with
     | [] => EmptyString
     | (k, x) :: ms' =>
         (if first then EmptyString else "," ++ Json.newline_indent (S level))
         ++ Json.encode_string k ++ ": " ++ Json.encode (S level) x
         ++ items false ms'
     end) b ms
  = Json.encode_items level b ms.
Proof.
  revert b. induction ms as [|[k x] ms IH]; intros b; simpl; [reflexivity|].
  now rewrite IH.
Qed.

Lemma encode_obj (level : nat) (ms : list (string * Json.value)) :
  Json.encode level (Json.Obj ms) =
  match ms with
  | [] => "{}"
  | _ :: _ =>
      "{" ++ Json.newline_indent (S level) ++ Json.encode_items level true ms
      ++ Json.newline_indent level ++ "}"
  end.
Proof.
  destruct ms as [|m ms]; [reflexivity|].
  cbn [Json.encode]. now rewrite encode_items_fix.
Qed.

(** An encoded value starts with a quote or a brace, never with a blank. *)
Lemma skip_ws_encode (level : nat) (x : Json.value) (rest : string) :
  Json.skip_ws (Json.encode level x ++ rest) = Json.encode level x ++ rest.
Proof.
  destruct x as [s|ms].
  - reflexivity.
  - rewrite encode_obj. destruct ms; reflexivity.
Qed.

Lemma parses_str (level : nat) (s : string) : parses 1 level (Json.Str s).
Proof.
  intros fuel rest Hfuel. destruct fuel as [|fuel]; [lia|].
  cbn [Json.encode]. rewrite encode_string_unfold.
  cbn [Json.parse_value]. change (Ascii.eqb PyStr.dquote PyStr.dquote) with true.
  cbv iota. now rewrite scanstring_escape.
Qed.

Lemma parses_mono (n n' level : nat) (x : Json.value) :
  n <= n' -> parses n level x -> parses n' level x.
Proof. intros Hle Hp fuel rest Hfuel. apply Hp. lia. Qed.

(** One turn of the members loop, on a key the encoder wrote. *)
Lemma parse_members_step (fuel : nat) (acc : dict Json.value) (k t : string) :
  Json.parse_members (S fuel) acc (Json.encode_string k ++ ": " ++ t) =
  match Json.parse_value fuel (Json.skip_ws t) with
  | None => None
  | Some (x, s4) =>
      match Json.skip_ws s4 with
      | EmptyString => None
      | String c5 s5 =>
          if Ascii.eqb c5 "}" then Some (Json.Obj (Dict.set acc k x), s5)
          else if Ascii.eqb c5 ","
               then Json.parse_members fuel (Dict.set acc k x) (Json.skip_ws s5)
               else None
      end
  end.
Proof.
  rewrite encode_string_unfold. cbn [Json.parse_members].
  change (Ascii.eqb PyStr.dquote PyStr.dquote) with true. cbv iota.
  rewrite scanstring_escape. reflexivity.
Qed.

Lemma skip_ws_closing_brace (level : nat) (rest : string) :
  Json.skip_ws (Json.newline_indent level ++ String "}" rest) = String "}" rest.
Proof. now rewrite skip_ws_newline_indent. Qed.

Lemma skip_ws_next_member (level : nat) (k t : string) :
  Json.skip_ws (Json.newline_indent level ++ Json.encode_string k ++ t)
  = Json.encode_string k ++ t.
Proof. rewrite skip_ws_newline_indent, encode_string_unfold. reflexivity. Qed.

(** The members loop of the decoder on the members the encoder wrote. *)
Lemma parse_members_encoded (n level : nat) (ms : list (string * Json.value)) :
  Forall (fun m => parses n (S level) (snd m)) ms ->
  forall (k : string) (x : Json.value) (acc : dict Json.value) (fuel : nat)
         (rest : string),
    parses n (S level) x ->
    n + S (List.length ms) <= fuel ->
    Json.parse_members fuel acc
      (Json.encode_string k ++ ": " ++ Json.encode (S level) x
       ++ closing level ms rest)
    = Some (Json.Obj (fold_left (fun a m => Dict.set a (fst m) (snd m))
                        ms (Dict.set acc k x)),
            rest).
Proof.
  induction 1 as [|[k' x'] ms Hx' Hms IH]; intros k x acc fuel rest Hx Hfuel;
    (destruct fuel as [|fuel]; [simpl in Hfuel; lia|]);
    rewrite parse_members_step, skip_ws_encode, (Hx fuel _)
      by (simpl in Hfuel; lia);
    unfold closing; cbn [Json.encode_items fold_left].
  - cbn [append]. now rewrite skip_ws_closing_brace.
  - rewrite !append_assoc. cbn [append Json.skip_ws].
    change (Json.is_ws ",") with false. cbv iota.
    change (Ascii.eqb "," "}") with false.
    change (Ascii.eqb "," ",") with true. cbv iota.
    rewrite skip_ws_next_member.
    apply (IH k' x' (Dict.set acc k x) fuel rest Hx').
    simpl in Hfuel. simpl. lia.
Qed.

Lemma fold_set_fresh {V : Type} (ms : dict V) : forall acc : dict V,
  NoDup (Dict.keys (acc ++ ms)%list) ->
  fold_left (fun a m => Dict.set a (fst m) (snd m)) ms acc = (acc ++ ms)%list.
Proof.
  induction ms as [|[k v] ms IH]; intros acc Hnd; simpl.
  - now rewrite app_nil_r.
  - assert (Hfresh : ~ In k (Dict.keys acc)).
    { unfold Dict.keys in *. rewrite map_app in Hnd. simpl in Hnd.
      apply NoDup_remove_2 in Hnd. intros Hin. apply Hnd.
      apply in_or_app. now left. }
    rewrite (set_fresh _ _ _ Hfresh), IH; rewrite <- app_assoc; [reflexivity|].
    exact Hnd.
Qed.

(** An object whose members are read back is read back, when no key
    comes twice. *)
Lemma parses_obj (n level : nat) (ms : list (string * Json.value)) :
  Forall (fun m => parses n (S level) (snd m)) ms ->
  NoDup (Dict.keys ms) ->
  parses (n + List.length ms + 1) level (Json.Obj ms).
Proof.
  intros Hms Hnd fuel rest Hfuel.
  destruct fuel as [|fuel]; [lia|].
  rewrite encode_obj. destruct ms as [|[k x] ms]; [reflexivity|].
  inversion Hms as [|? ? Hx Hms']; subst. simpl in Hx.
  cbn [Json.encode_items]. rewrite !append_assoc.
  cbn [append Json.parse_value].
  change (Ascii.eqb "{" PyStr.dquote) with false.
  change (Ascii.eqb "{" "{") with true. cbv iota.
  rewrite skip_ws_next_member.
  rewrite (encode_string_unfold k) at 1.
  change (Ascii.eqb PyStr.dquote "}") with false. cbv iota.
  rewrite <- encode_string_unfold.
  change (Json.parse_members fuel []
            (Json.encode_string k ++ ": " ++ Json.encode (S level) x
             ++ closing level ms rest)
          = Some (Json.Obj ((k, x) :: ms), rest)).
  rewrite (parse_members_encoded n level ms Hms' k x [] fuel rest Hx)
    by (simpl in Hfuel; lia).
  simpl Dict.set. now rewrite (fold_set_fresh ms [(k, x)] Hnd).
Qed.

Lemma parses_slide (level : nat) (slide_data : dict string) :
  NoDup (Dict.keys slide_data) ->
  parses (List.length slide_data + 2) level (json_of_slide slide_data).
Proof.
  intros Hnd. unfold json_of_slide.
  replace (List.length slide_data + 2)
    with (1 + List.length (map (fun kv : string * string => (fst kv, Json.Str (snd kv)))
                             slide_data) + 1)
    by (rewrite length_map; lia).
  apply parses_obj.
  - apply Forall_forall. intros m Hin. apply in_map_iff in Hin as (kv & <- & _).
    apply parses_str.
  - unfold Dict.keys in *. rewrite map_map. exact Hnd.
Qed.

Lemma total_members_ge (output : dict (dict string)) (kv : string * dict string) :
  In kv output -> List.length (snd kv) <= total_members output.
Proof.
  induction output as [|kv' output IH]; [contradiction|].
  unfold total_members. simpl. fold (total_members output).
  intros [->|Hin]; [apply Nat.le_add_r|].
  eapply Nat.le_trans; [exact (IH Hin) | apply Nat.le_add_l].
Qed.

Lemma parses_manifest (output : dict (dict string)) :
  distinct_keys output ->
  parses (total_members output + List.length output + 3) 0 (json_of_manifest output).
Proof.
  intros [Hnd Hslides]. unfold json_of_manifest.
  replace (total_members output + List.length output + 3)
    with ((total_members output + 2)
          + List.length (map (fun kv : string * dict string =>
                                (fst kv, json_of_slide (snd kv))) output) + 1)
    by (rewrite length_map; lia).
  apply parses_obj.
  - apply Forall_forall. intros m Hin. apply in_map_iff in Hin as (kv & <- & Hin).
    simpl. apply (parses_mono (List.length (snd kv) + 2)).
    + pose proof (total_members_ge output kv Hin). lia.
    + apply parses_slide. rewrite Forall_forall in Hslides. now apply Hslides.
  - unfold Dict.keys in *. rewrite map_map. exact Hnd.
Qed.

(** The encoded text is long enough to serve as fuel. *)
Lemma length_slide_items (level : nat) (b : bool) (slide_data : dict string) :
  List.length slide_data <=
  String.length (Json.encode_items level b
                   (map (fun kv => (fst kv, Json.Str (snd kv))) slide_data)).
Proof.
  revert b. induction slide_data as [|[k v] d IH]; intros b; simpl; [lia|].
  specialize (IH false). simpl. repeat (rewrite length_append; simpl String.length).
  lia.
Qed.

Lemma length_slide (level : nat) (slide_data : dict string) :
  List.length slide_data <= String.length (Json.encode level (json_of_slide slide_data)).
Proof.
  unfold json_of_slide. rewrite encode_obj.
  destruct slide_data as [|kv d]; [simpl; lia|].
  change (map (fun kv0 : string * string => (fst kv0, Json.Str (snd kv0))) (kv :: d))
    with ((fst kv, Json.Str (snd kv))
          :: map (fun kv0 : string * string => (fst kv0, Json.Str (snd kv0))) d).
  cbv iota.
  change ((fst kv, Json.Str (snd kv))
          :: map (fun kv0 : string * string => (fst kv0, Json.Str (snd kv0))) d)
    with (map (fun kv0 : string * string => (fst kv0, Json.Str (snd kv0))) (kv :: d)).
  rewrite !length_append.
  pose proof (length_slide_items level true (kv :: d)). lia.
Qed.

Lemma length_manifest_items (b : bool) (output : dict (dict string)) :
  total_members output + 4 * List.length output <=
  String.length (Json.encode_items 0 b
                   (map (fun kv => (fst kv, json_of_slide (snd kv))) output)).
Proof.
  revert b. induction output as [|[k d] output IH]; intros b; [simpl; lia|].
  cbn [map fst snd total_members fold_right Json.encode_items List.length].
  fold (total_members output).
  specialize (IH false). pose proof (length_slide 1 d) as Hd.
  set (e := Json.encode 1 (json_of_slide d)) in *.
  set (r := Json.encode_items 0 false _) in *.
  unfold Json.encode_string.
  repeat first [rewrite length_append | progress simpl String.length].
  lia.
Qed.

Lemma length_document (output : dict (dict string)) :
  output <> [] ->
  total_members output + List.length output + 3 <= String.length (to_document output).
Proof.
  intros Hne. unfold to_document, Json.dumps, json_of_manifest.
  rewrite encode_obj. destruct output as [|kv output]; [contradiction|].
  change (map (fun kv0 : string * dict string => (fst kv0, json_of_slide (snd kv0)))
            (kv :: output))
    with ((fst kv, json_of_slide (snd kv))
          :: map (fun kv0 : string * dict string => (fst kv0, json_of_slide (snd kv0)))
               output).
  cbv iota.
  change ((fst kv, json_of_slide (snd kv))
          :: map (fun kv0 : string * dict string => (fst kv0, json_of_slide (snd kv0)))
               output)
    with (map (fun kv0 : string * dict string => (fst kv0, json_of_slide (snd kv0)))
            (kv :: output)).
  rewrite !length_append.
  pose proof (length_manifest_items true (kv :: output)) as H.
  simpl List.length in *. lia.
Qed.

(** Any manifest without repeated keys: the document, read back, is the
    manifest. *)
Lemma loads_to_document (output : dict (dict string)) :
  distinct_keys output ->
  Json.loads (to_document output) = Some (json_of_manifest output).
Proof.
  intros Hd. unfold Json.loads.
  assert (Hskip : Json.skip_ws (to_document output) = to_document output).
  { unfold to_document, Json.dumps.
    rewrite <- (append_nil_r (Json.encode 0 (json_of_manifest output))) at 1.
    rewrite skip_ws_encode. apply append_nil_r. }
  rewrite Hskip.
  assert (Hparse : Json.parse_value (String.length (to_document output))
                     (to_document output)
                   = Some (json_of_manifest output, "")).
  { destruct output as [|kv output]; [reflexivity|].
    assert (Hne : kv :: output <> []) by discriminate.
    pose proof (parses_manifest _ Hd (String.length (to_document (kv :: output)))
                  "" (length_document _ Hne)) as Hp.
    rewrite append_nil_r in Hp. exact Hp. }
  now rewrite Hparse.
Qed.

End JsonFacts.

(** ** Joining the prefix, the file name and the CDN base *)

Section Joins.

#[local] Open Scope string_scope.

Lemma rstrip_no_trailing (c : ascii) (s : string) :
  PyStr.ends_with_char c (PyStr.rstrip c s) = false.
Proof.
  induction s as [|a s IH]; simpl; [reflexivity|].
  destruct (PyStr.rstrip c s) as [|b r] eqn:E.
  - destruct (Ascii.eqb a c) eqn:Eac; simpl; [reflexivity | exact Eac].
  - exact IH.
Qed.

(** What [rstrip] takes off is a run of the character, and nothing else. *)
Lemma rstrip_trailing (c : ascii) (s : string) :
  exists n, s = PyStr.rstrip c s ++ run_of c n.
Proof.
  induction s as [|a s [n IH]]; simpl; [now exists 0|].
  destruct (PyStr.rstrip c s) as [|b r] eqn:E.
  - destruct (Ascii.eqb_spec a c) as [->|_].
    + exists (S n). simpl. now rewrite IH at 1.
    + exists n. simpl. now rewrite IH at 1.
  - exists n. simpl. now rewrite IH at 1.
Qed.

(** Stripping keeps the head of a string that does not begin with the
    character. *)
Lemma rstrip_head (c a : ascii) (s : string) :
  a <> c -> exists r, PyStr.rstrip c (String a s) = String a r.
Proof.
  intros Hne. simpl. destruct (PyStr.rstrip c s) as [|b r].
  - destruct (Ascii.eqb_spec a c); [contradiction | now exists ""].
  - now exists (String b r).
Qed.

Lemma separator_at_head (s : string) :
  separator_at s 0 = leading_separator s.
Proof. now destruct s. Qed.

(** At the separator that joins [a] and [b], there is a second separator
    next to it exactly when [a] ends with one or [b] begins with one. *)
Lemma doubled_join (a b : string) :
  doubled_separator_at (a ++ "/" ++ b) (String.length a)
  = PyStr.ends_with_char PyStr.slash a || leading_separator b.
Proof.
  induction a as [|x a IH].
  - unfold doubled_separator_at. simpl. unfold separator_at at 1. simpl.
    change (separator_at (String "/" b) 1) with (separator_at b 0).
    apply separator_at_head.
  - destruct a as [|y a].
    + unfold doubled_separator_at. simpl.
      change (separator_at (String x (String "/" b)) 1) with true.
      change (separator_at (String x (String "/" b)) 0) with (Ascii.eqb x PyStr.slash).
      change (separator_at (String x (String "/" b)) 2) with (separator_at b 0).
      now rewrite separator_at_head.
    + revert IH. unfold doubled_separator_at.
      cbn [String.length append PyStr.ends_with_char].
      intros IH. exact IH.
Qed.

Lemma tts_filename_head (hex : string) : leading_separator (tts_filename hex) = false.
Proof. reflexivity. Qed.

Lemma s3_key_head (prefix filename : string) :
  leading_separator (s3_key_of prefix filename)
  = match PyStr.rstrip PyStr.slash prefix with
    | EmptyString => true
    | r => leading_separator r
    end.
Proof. unfold s3_key_of. now destruct (PyStr.rstrip PyStr.slash prefix). Qed.

End Joins.

(* ===================================================================== *)
(** * The batch pipeline, claim by claim *)
(* ===================================================================== *)

Section Numbering.

Variable cfg : Config.
Variable ext : Services.
Variables voice_id model_id api_key : string.

(** C1, as amended.  A run that returns numbers the accepted items, not
    the input positions: with [acc] the texts whose synthesis was accepted,
    in input order, the manifest is the entries of [acc] numbered one after
    the other from 2, so its keys are [slide2], [slide3], ... without a gap,
    and the [j]-th accepted text (from 0) sits under slide [j + 2]. *)
Theorem slides_numbered_by_success (paragraphs : dict string)
  (output : manifest) (w' : World) :
  synthesize_and_upload cfg ext paragraphs voice_id model_id api_key fresh_world
  = (Returns output, w') ->
  let acc := accepted_texts ext voice_id model_id api_key 0 (Dict.values paragraphs) in
  output = map entry_item (entries_from cfg ext voice_id model_id 2 0 acc)
  /\ Dict.keys output = map slide_key (consecutive 2 (List.length acc))
  /\ (forall j text,
        nth_error acc j = Some text ->
        Dict.get output (slide_key (2 + Z.of_nat j))
        = Some (slide_entry (2 + Z.of_nat j) text (nth_url cfg ext j)
                  voice_id model_id)).
Proof.
  intros Hrun acc.
  destruct (run_returns cfg ext _ _ _ _ _ _ _ Hrun) as (Hout & _).
  simpl in Hout. fold acc in Hout.
  split; [exact Hout|]. split.
  - rewrite Hout, manifest_keys. now rewrite entries_from_index.
  - intros j text Hj. rewrite Hout.
    pose proof (entries_from_nth cfg ext voice_id model_id acc 2 0 j text Hj) as Hnth.
    apply nth_error_In in Hnth.
    apply (manifest_get _ _
             (sorted_NoDup _ (eq_ind_r (StronglySorted Z.lt)
                                (consecutive_sorted _ _)
                                (entries_from_index cfg ext voice_id model_id acc 2 0))))
      in Hnth.
    exact Hnth.
Qed.

End Numbering.

(** The sample run of three paragraphs whose second synthesis is rejected:
    the third paragraph is under [slide3], next to the first. *)
Lemma slides_numbered_by_success_witness :
  exists output w',
    Examples.run_on Examples.cfg0 Examples.second_rejected Examples.three_paragraphs
    = (Returns output, w')
    /\ Dict.keys output = ["slide2"%string; "slide3"%string].
Proof.
  destruct (Examples.run_on Examples.cfg0 Examples.second_rejected
              Examples.three_paragraphs) as [[output|e] w'] eqn:E.
  - exists output, w'. split; [reflexivity|].
    rewrite (proj1 (proj2 (slides_numbered_by_success
                             Examples.cfg0 Examples.second_rejected
                             "voice" "model" "key"
                             Examples.three_paragraphs output w' E))).
    vm_compute. reflexivity.
  - vm_compute in E. discriminate E.
Defined.

(** C1, as stated, fails.  Of three paragraphs with the second synthesis
    rejected, the third (position 2) is accepted, and no [slide4] holds it:
    the numbering does not follow the input positions. *)
Lemma position_numbering_fails :
  ~ numbered_by_position Examples.cfg0 Examples.second_rejected
      "voice" "model" "key" Examples.three_paragraphs.
Proof.
  unfold numbered_by_position. intros H.
  remember (synthesize_and_upload Examples.cfg0 Examples.second_rejected
              Examples.three_paragraphs "voice" "model" "key" fresh_world) as r eqn:E.
  vm_compute in E. subst r.
  destruct (H _ _ eq_refl 2 "Again"%string eq_refl) as (d & Hget & _).
  - vm_compute. discriminate.
  - vm_compute in Hget. discriminate.
Qed.

Section Containment.

Variable cfg : Config.
Variable ext : Services.
Variables voice_id model_id api_key : string.


(** C5, as amended.  In a run of the loop, after the items before it went
    through:
    - an item whose synthesis call fails as the script tests it (no
      response, or a response with a status from 400 to 599) is never
      uploaded: the loop goes through this item too, with the loop variables,
      the uploads, the staged files and the uuids drawn all as they were;
    - an item answered with any other status, a 2xx one or not, is taken as
      audio: the body of the response is staged and the publisher is called
      with it, once; if the upload goes through the item gets its manifest
      entry, if not the run raises. *)
Theorem no_upload_after_rejected_synthesis (pre : list string) (text : string)
  (st st1 : Loop) (w w1 : World) :
  for_each cfg ext voice_id model_id api_key pre st w = (Returns st1, w1) ->
  let reply := reply_to ext voice_id model_id api_key (List.length (w_posts w1)) text in
  (((exists e, reply = TransportFailed e)
    \/ (exists r, reply = Replied r /\ (400 <= status_code r < 600)%Z)) ->
   exists w2,
     for_each cfg ext voice_id model_id api_key (pre ++ [text]) st w = (Returns st1, w2)
     /\ w_uploads w2 = w_uploads w1
     /\ w_temp w2 = w_temp w1
     /\ w_uuids w2 = w_uuids w1
     /\ w_posts w2 = w_posts w1 ++ [tts_request voice_id model_id api_key text])
  /\ (forall r,
        reply = Replied r ->
        ~ (400 <= status_code r < 600)%Z ->
        exists o w2,
          for_each cfg ext voice_id model_id api_key (pre ++ [text]) st w = (o, w2)
          /\ w_uploads w2 = w_uploads w1 ++ [upload_call cfg ext w1 (content r)]
          /\ up_body (upload_call cfg ext w1 (content r)) = Some (content r)
          /\ up_path (upload_call cfg ext w1 (content r)) = nth_path ext (w_uuids w1)
          /\ w_uuids w2 = S (w_uuids w1)
          /\ o = match up_error (upload_call cfg ext w1 (content r)) with
                 | None =>
                     Returns
                       {| index := index st1 + 1;
                          result :=
                            Dict.set (result st1) (slide_key (index st1))
                              (slide_entry (index st1) text
                                 (nth_url cfg ext (w_uuids w1)) voice_id model_id) |}
                 | Some msg => Raises (S3UploadFailedError msg)
                 end).
Proof.
  intros Hpre reply. split.
  - intros Hfail.
    assert (Hacc : accepted reply = None).
    { destruct Hfail as [(e & ->)|(r & -> & Hs)]; [reflexivity|].
      unfold accepted, error_status.
      destruct (Z.leb_spec 400 (status_code r)); [|lia].
      destruct (Z.ltb_spec (status_code r) 600); [reflexivity | lia]. }
    rewrite for_each_app, Hpre, for_each_cons.
    rewrite (loop_body_rejected cfg ext _ _ _ text st1 w1 Hacc).
    eexists. split; [reflexivity|]. repeat split.
  - intros r Hreply Hstatus.
    assert (Hacc : accepted reply = Some r).
    { rewrite Hreply. unfold accepted, error_status.
      destruct (Z.leb_spec 400 (status_code r)); [|reflexivity].
      destruct (Z.ltb_spec (status_code r) 600); [lia | reflexivity]. }
    rewrite for_each_app, Hpre, for_each_cons.
    destruct (up_error (upload_call cfg ext w1 (content r))) as [msg|] eqn:Hup.
    + rewrite (loop_body_upload_failed cfg ext _ _ _ text st1 w1 r msg Hacc Hup).
      eexists. eexists. split; [reflexivity|]. repeat split.
    + rewrite (loop_body_published cfg ext _ _ _ text st1 w1 r Hacc Hup).
      eexists. eexists. split; [reflexivity|]. repeat split.
Qed.

(** C9.  The empty batch: the pipeline returns the empty manifest, raises
    nothing and leaves the world as it found it, with no synthesis call, no
    upload, no file and no message. *)
Theorem empty_batch_returns_empty_manifest (w : World) :
  synthesize_and_upload cfg ext Dict.empty voice_id model_id api_key w
  = (Returns Dict.empty, w).
Proof. reflexivity. Qed.

(** C10.  Two inputs with the same texts in the same order, whatever their
    keys: the pipeline returns the same manifest and leaves the same world
    behind, the same synthesis requests, staged files, upload calls and
    messages, and the whole page of a script run is the same. *)
Theorem result_depends_on_texts_only (p1 p2 : dict string) (w : World) :
  Dict.values p1 = Dict.values p2 ->
  synthesize_and_upload cfg ext p1 voice_id model_id api_key w
  = synthesize_and_upload cfg ext p2 voice_id model_id api_key w
  /\ (forall clicked sess,
        script_run cfg ext p1 api_key voice_id model_id clicked sess w
        = script_run cfg ext p2 api_key voice_id model_id clicked sess w).
Proof.
  intros Hv.
  assert (Hrun : synthesize_and_upload cfg ext p1 voice_id model_id api_key
                 = synthesize_and_upload cfg ext p2 voice_id model_id api_key)
    by (unfold synthesize_and_upload; now rewrite Hv).
  split; [now rewrite Hrun|].
  intros clicked sess. unfold script_run, on_generate.
  rewrite Hrun.
  replace (List.length p1) with (List.length p2); [reflexivity|].
  unfold Dict.values in Hv.
  now rewrite <- (length_map snd p1), Hv, length_map.
Qed.

End Containment.



(** The second of three paragraphs is answered 500: the loop goes through
    it and uploads nothing for it. *)
Lemma no_upload_after_rejected_synthesis_witness :
  exists st1 w2,
    for_each Examples.cfg0 Examples.second_rejected "voice" "model" "key"
      (["Hello"%string] ++ ["World"%string]) first_loop fresh_world
    = (Returns st1, w2)
    /\ index st1 = 3%Z
    /\ List.length (w_uploads w2) = 1.
Proof.
  destruct (for_each Examples.cfg0 Examples.second_rejected "voice" "model" "key"
              ["Hello"%string] first_loop fresh_world) as [[st1|e] w1] eqn:Hpre.
  - pose proof Hpre as Hv. vm_compute in Hv. injection Hv as <- <-.
    destruct (proj1 (no_upload_after_rejected_synthesis
                       Examples.cfg0 Examples.second_rejected "voice" "model" "key"
                       ["Hello"%string] "World"%string first_loop _ fresh_world _
                       Hpre))
      as (w2 & Hrun & Hup & _).
    + right. eexists. split; [cbv; reflexivity | simpl; lia].
    + eexists. exists w2. split; [exact Hrun|].
      split; [reflexivity | now rewrite Hup].
  - vm_compute in Hpre. discriminate Hpre.
Defined.

(** C5, as stated, fails.  A reply with status 304 is no 2xx response, and
    its body is staged and uploaded all the same. *)
Lemma status_304_is_uploaded :
  ~ no_upload_unless_2xx Examples.cfg0 Examples.not_modified
      "voice" "model" "key" Examples.one_paragraph.
Proof.
  intros H.
  destruct (for_each Examples.cfg0 Examples.not_modified "voice" "model" "key"
              ([] ++ ["Hello"%string]) first_loop fresh_world) as [o w2] eqn:E.
  pose proof E as E'. vm_compute in E'. injection E' as <- <-.
  specialize (H [] "Hello"%string [] first_loop fresh_world _ _ eq_refl eq_refl eq_refl E).
  discriminate H.
Qed.

(** Two inputs that differ in their keys only. *)
Lemma result_depends_on_texts_only_witness :
  Examples.run_on Examples.cfg0 Examples.all_fine Examples.two_paragraphs
  = Examples.run_on Examples.cfg0 Examples.all_fine Examples.two_renamed.
Proof.
  exact (proj1 (result_depends_on_texts_only
                  Examples.cfg0 Examples.all_fine "voice" "model" "key"
                  Examples.two_paragraphs Examples.two_renamed fresh_world eq_refl)).
Defined.

(** C3.  The sample run whose upload is refused: the exception leaves the
    pipeline and the staged file is still under temp/, which was empty
    before; no statement of the script removes it on this path. *)
Theorem staged_file_left_after_failed_upload :
  let run := Examples.run_on Examples.cfg0 Examples.first_upload_denied
               Examples.one_paragraph in
  fst run = Raises (S3UploadFailedError "AccessDenied")
  /\ w_temp fresh_world = []
  /\ w_temp (snd run)
     = [(temp_path (tts_filename (Examples.hex_of 0)), Examples.audio)].
Proof. vm_compute. repeat split. Qed.

(** ** The page of a run in which nothing succeeds *)

Section NothingGenerated.

Variable cfg : Config.
Variable ext : Services.
Variables voice_id model_id api_key : string.

Lemma failure_report_one_error (index : Z) (reply : PostReply) :
  List.length (filter is_item_error (failure_report index reply)) = 1.
Proof. destruct reply as [r|e]; simpl; [destruct (r_json r)|]; reflexivity. Qed.

(** A loop in which no synthesis is accepted: only requests and messages,
    one diagnostic per text. *)
Lemma for_each_all_rejected (texts : list string) :
  forall (st : Loop) (w : World),
    accepted_texts ext voice_id model_id api_key (List.length (w_posts w)) texts = [] ->
    exists msgs,
      for_each cfg ext voice_id model_id api_key texts st w
      = (Returns st,
         {| w_posts := w_posts w ++ map (tts_request voice_id model_id api_key) texts;
            w_uuids := w_uuids w; w_temp := w_temp w; w_uploads := w_uploads w;
            w_ui := w_ui w ++ msgs |})
      /\ List.length (filter is_item_error msgs) = List.length texts.
Proof.
  induction texts as [|text rest IH]; intros st w Hnone.
  - exists []. simpl. rewrite !app_nil_r. destruct w; split; reflexivity.
  - simpl in Hnone.
    destruct (accepted (reply_to ext voice_id model_id api_key
                          (List.length (w_posts w)) text)) eqn:Hacc; [discriminate|].
    rewrite for_each_cons, (loop_body_rejected cfg ext _ _ _ text st w Hacc).
    match goal with
    | |- context [for_each _ _ _ _ _ rest st ?w1] =>
        destruct (IH st w1) as (msgs & Hrun & Hcount)
    end.
    { simpl. now rewrite length_app, Nat.add_1_r. }
    exists ((Processing (index st)
             :: failure_report (index st)
                  (reply_to ext voice_id model_id api_key
                     (List.length (w_posts w)) text)) ++ msgs).
    split.
    + rewrite Hrun. simpl. now rewrite <- !app_assoc.
    + rewrite filter_app, length_app, Hcount. simpl.
      now rewrite failure_report_one_error.
Qed.

(** C4.  A script run with the inputs filled in and the button pressed,
    once on the empty batch and once on a batch of which no synthesis is
    accepted.  Both leave the session without an output and both end on
    the same message, that no audio file was generated; yet the two pages
    differ: one says that 0 paragraphs were loaded and shows nothing else,
    the other gives the number of paragraphs loaded and one diagnostic per
    paragraph. *)
Theorem all_failed_differs_from_nothing_submitted (paragraphs : dict string)
  (sess : Session) :
  api_key <> ""%string -> voice_id <> ""%string -> model_id <> ""%string ->
  paragraphs <> [] ->
  accepted_texts ext voice_id model_id api_key 0 (Dict.values paragraphs) = [] ->
  let nothing :=
    script_run cfg ext Dict.empty api_key voice_id model_id true sess fresh_world in
  let all_failed :=
    script_run cfg ext paragraphs api_key voice_id model_id true sess fresh_world in
  fst nothing = Returns no_output
  /\ fst all_failed = Returns no_output
  /\ w_ui (snd nothing) = [Loaded 0; NoAudioGenerated]
  /\ (exists msgs,
        w_ui (snd all_failed)
        = Loaded (List.length paragraphs) :: msgs ++ [NoAudioGenerated]
        /\ List.length (filter is_item_error msgs) = List.length paragraphs)
  /\ w_ui (snd nothing) <> w_ui (snd all_failed).
Proof.
  intros Hk Hv Hm Hne Hnone nothing all_failed.
  apply String.eqb_neq in Hk, Hv, Hm.
  assert (Hnothing : nothing
                     = (Returns no_output,
                        {| w_posts := []; w_uuids := 0; w_temp := [];
                           w_uploads := []; w_ui := [Loaded 0; NoAudioGenerated] |})).
  { unfold nothing, script_run, bind, st_show. simpl. rewrite Hk, Hv, Hm.
    reflexivity. }
  destruct (for_each_all_rejected (Dict.values paragraphs) first_loop
              {| w_posts := []; w_uuids := 0; w_temp := [];
                 w_uploads := []; w_ui := [Loaded (List.length paragraphs)] |} Hnone)
    as (msgs & Hloop & Hcount).
  assert (Hall : snd all_failed
                 = {| w_posts := map (tts_request voice_id model_id api_key)
                                   (Dict.values paragraphs);
                      w_uuids := 0; w_temp := []; w_uploads := [];
                      w_ui := Loaded (List.length paragraphs)
                              :: msgs ++ [NoAudioGenerated] |}
                 /\ fst all_failed = Returns no_output).
  { unfold all_failed, script_run, bind, st_show. simpl. rewrite Hk, Hv, Hm.
    unfold on_generate, try_except, bind. rewrite run_unfold. fold first_loop.
    unfold Dict.empty. simpl in Hloop. rewrite Hloop. simpl. split; reflexivity. }
  destruct Hall as [Hsnd Hfst].
  rewrite Hnothing, Hsnd, Hfst. simpl.
  repeat split.
  - exists msgs. split; [reflexivity|].
    unfold Dict.values in Hcount. now rewrite length_map in Hcount.
  - intros E. injection E as E _.
    destruct paragraphs; [contradiction | discriminate].
Qed.

End NothingGenerated.

(** Three paragraphs, every synthesis refused or timed out. *)
Lemma all_failed_differs_from_nothing_submitted_witness :
  w_ui (snd (script_run Examples.cfg0 Examples.all_rejected Dict.empty
               "key" "voice" "model" true no_output fresh_world))
  <> w_ui (snd (script_run Examples.cfg0 Examples.all_rejected Examples.three_paragraphs
                  "key" "voice" "model" true no_output fresh_world)).
Proof.
  apply (all_failed_differs_from_nothing_submitted
           Examples.cfg0 Examples.all_rejected "voice" "model" "key"
           Examples.three_paragraphs no_output);
    try discriminate; reflexivity.
Defined.

(** ** The exports of a run *)

Section Exports.

Variable cfg : Config.
Variable ext : Services.
Variables voice_id model_id api_key : string.

Lemma entries_from_sorted (texts : list string) (i : Z) (j : nat) :
  StronglySorted Z.lt (map e_index (entries_from cfg ext voice_id model_id i j texts)).
Proof. rewrite entries_from_index. apply consecutive_sorted. Qed.

Lemma entries_from_fields (texts : list string) : forall (i : Z) (j : nat),
  Forall (fun e => e_voice e = voice_id /\ e_model e = model_id
                   /\ exists n, e_url e = nth_url cfg ext n)
    (entries_from cfg ext voice_id model_id i j texts).
Proof.
  induction texts as [|t ts IH]; intros i j; simpl; constructor; [|apply IH].
  simpl. repeat split. now exists j.
Qed.

Lemma manifest_distinct_keys (es : list Entry) :
  NoDup (map e_index es) -> distinct_keys (map entry_item es).
Proof.
  intros Hnd. split; [now apply manifest_keys_NoDup|].
  apply Forall_forall. intros kv Hin. apply in_map_iff in Hin as (e & <- & _).
  apply slide_entry_keys_NoDup.
Qed.

(** C6.  The link list of the manifest of a run: under the one header
    [Link], one row per entry of the manifest and no other, each row the
    audio URL of its entry, the rows by ascending slide number (the numbers
    compared as integers); the CSV text is these rows as [csv.writer]
    writes them. *)
Theorem link_list_in_slide_order (paragraphs : dict string)
  (output : manifest) (w' : World) :
  synthesize_and_upload cfg ext paragraphs voice_id model_id api_key fresh_world
  = (Returns output, w') ->
  let es := entries_from cfg ext voice_id model_id 2 0
              (accepted_texts ext voice_id model_id api_key 0 (Dict.values paragraphs)) in
  let links := map (fun e => [e_url e]) es in
  output = map entry_item es
  /\ StronglySorted Z.lt (map e_index es)
  /\ generate_csv_rows output = Returns (["Link"%string] :: links)
  /\ generate_csv_links output = Returns (Csv.written (["Link"%string] :: links))
  /\ List.length links = List.length output.
Proof.
  intros Hrun es links.
  destruct (run_returns cfg ext _ _ _ _ _ _ _ Hrun) as (Hout & _).
  simpl in Hout. fold es in Hout.
  pose proof (entries_from_sorted
                (accepted_texts ext voice_id model_id api_key 0 (Dict.values paragraphs))
                2 0) as Hsorted.
  fold es in Hsorted.
  assert (Hrows : generate_csv_rows output = Returns (["Link"%string] :: links)).
  { rewrite Hout, csv_rows_of_entries by (now apply sorted_NoDup).
    now rewrite sort_entries_id. }
  repeat split; try assumption.
  - unfold generate_csv_links. now rewrite Hrows.
  - unfold links. now rewrite Hout, !length_map.
Qed.

(** C7.  The JSON document of the manifest of a run, read back: an object
    with one key per entry, [slide<index>], in the order of the manifest;
    under it an object of exactly four members, the text under
    [s<index>paragraph1], the URL under [audio_url<index>], then
    [voice_id] and [model_id].  The texts are those of the accepted
    paragraphs, in input order; the URLs are those the uploads were
    published under; voice and model are the ones the run was given. *)
Theorem document_read_back (paragraphs : dict string)
  (output : manifest) (w' : World) :
  synthesize_and_upload cfg ext paragraphs voice_id model_id api_key fresh_world
  = (Returns output, w') ->
  let acc := accepted_texts ext voice_id model_id api_key 0 (Dict.values paragraphs) in
  let es := entries_from cfg ext voice_id model_id 2 0 acc in
  Json.loads (to_document output)
  = Some (Json.Obj
            (map (fun e =>
                    (slide_key (e_index e),
                     Json.Obj [(paragraph_key (e_index e), Json.Str (e_text e));
                               (audio_key (e_index e), Json.Str (e_url e));
                               ("voice_id"%string, Json.Str (e_voice e));
                               ("model_id"%string, Json.Str (e_model e))]))
               es))
  /\ List.length es = List.length output
  /\ map e_text es = acc
  /\ Forall (fun e => e_voice e = voice_id /\ e_model e = model_id
                      /\ exists n, e_url e = nth_url cfg ext n) es.
Proof.
  intros Hrun acc es.
  destruct (run_returns cfg ext _ _ _ _ _ _ _ Hrun) as (Hout & _).
  simpl in Hout. fold acc in Hout. fold es in Hout.
  repeat split.
  - rewrite loads_to_document.
    + rewrite Hout. unfold json_of_manifest. now rewrite map_map.
    + rewrite Hout. apply manifest_distinct_keys, sorted_NoDup.
      apply entries_from_sorted.
  - now rewrite Hout, length_map.
  - apply entries_from_text.
  - apply entries_from_fields.
Qed.

End Exports.

(** Ten paragraphs, all published: [slide10] and [slide11] come after
    [slide9], where the order of the key strings would put them before
    [slide2]. *)
Lemma link_list_in_slide_order_witness :
  exists output w',
    Examples.run_on Examples.cfg0 Examples.all_fine Examples.ten_paragraphs
    = (Returns output, w')
    /\ generate_csv_rows output
       = Returns (["Link"%string]
                  :: map (fun j => [nth_url Examples.cfg0 Examples.all_fine j])
                       (seq 0 10)).
Proof.
  destruct (Examples.run_on Examples.cfg0 Examples.all_fine Examples.ten_paragraphs)
    as [[output|e] w'] eqn:E.
  - exists output, w'. split; [reflexivity|].
    rewrite (proj1 (proj2 (proj2 (link_list_in_slide_order
                                    Examples.cfg0 Examples.all_fine
                                    "voice" "model" "key"
                                    Examples.ten_paragraphs output w' E)))).
    vm_compute. reflexivity.
  - vm_compute in E. discriminate E.
Defined.

(** A manifest whose keys were inserted as slide2, slide10, slide9: the
    links come out for slides 2, 9, 10. *)
Example links_of_slides_2_10_9 :
  generate_csv_rows
    (map entry_item
       [ {| e_index := 2; e_text := "a"; e_url := "u2"; e_voice := "v"; e_model := "m" |};
         {| e_index := 10; e_text := "b"; e_url := "u10"; e_voice := "v"; e_model := "m" |};
         {| e_index := 9; e_text := "c"; e_url := "u9"; e_voice := "v"; e_model := "m" |} ])
  = Returns [["Link"]; ["u2"]; ["u9"]; ["u10"]]%string.
Proof. reflexivity. Qed.

(** The sample run of two paragraphs, its document read back. *)
Lemma document_read_back_witness :
  exists output w',
    Examples.run_on Examples.cfg0 Examples.all_fine Examples.two_paragraphs
    = (Returns output, w')
    /\ Json.loads (to_document output)
       = Some (Json.Obj
                 [("slide2",
                   Json.Obj [("s2paragraph1", Json.Str "Hello");
                             ("audio_url2",
                              Json.Str (nth_url Examples.cfg0 Examples.all_fine 0));
                             ("voice_id", Json.Str "voice");
                             ("model_id", Json.Str "model")]);
                  ("slide3",
                   Json.Obj [("s3paragraph1", Json.Str "World");
                             ("audio_url3",
                              Json.Str (nth_url Examples.cfg0 Examples.all_fine 1));
                             ("voice_id", Json.Str "voice");
                             ("model_id", Json.Str "model")])]%string).
Proof.
  destruct (Examples.run_on Examples.cfg0 Examples.all_fine Examples.two_paragraphs)
    as [[output|e] w'] eqn:E.
  - exists output, w'. split; [reflexivity|].
    rewrite (proj1 (document_read_back
                      Examples.cfg0 Examples.all_fine "voice" "model" "key"
                      Examples.two_paragraphs output w' E)).
    vm_compute. reflexivity.
  - vm_compute in E. discriminate E.
Defined.

(** ** Keys and URLs *)

Section KeysAndUrls.

#[local] Open Scope string_scope.

(** C8, as amended.  The remote key is the prefix without its trailing
    separators, a separator, the file name; the URL is the CDN base without
    its trailing separators, a separator, the key; what is stripped is
    separators only, and all of them.  At its joining separator the key
    never has a second one; the URL has a second one there exactly when the
    stripped prefix is empty or begins with a separator, since the key then
    begins with one. *)
Theorem key_and_url_joins (prefix base hex : string) :
  let filename := tts_filename hex in
  let key := s3_key_of prefix filename in
  let url := cdn_url_of base key in
  let stripped_prefix := PyStr.rstrip PyStr.slash prefix in
  let stripped_base := PyStr.rstrip PyStr.slash base in
  key = stripped_prefix ++ "/" ++ filename
  /\ url = stripped_base ++ "/" ++ key
  /\ (exists n, prefix = stripped_prefix ++ run_of PyStr.slash n)
  /\ (exists n, base = stripped_base ++ run_of PyStr.slash n)
  /\ PyStr.ends_with_char PyStr.slash stripped_prefix = false
  /\ PyStr.ends_with_char PyStr.slash stripped_base = false
  /\ doubled_separator_at key (String.length stripped_prefix) = false
  /\ doubled_separator_at url (String.length stripped_base)
     = match stripped_prefix with
       | EmptyString => true
       | String c _ => Ascii.eqb c PyStr.slash
       end.
Proof.
  intros filename key url stripped_prefix stripped_base.
  repeat split; try reflexivity;
    try apply rstrip_trailing; try apply rstrip_no_trailing.
  - unfold key, s3_key_of. fold stripped_prefix.
    rewrite doubled_join. unfold stripped_prefix.
    rewrite rstrip_no_trailing. reflexivity.
  - unfold url, cdn_url_of. fold stripped_base.
    rewrite doubled_join. unfold stripped_base.
    rewrite rstrip_no_trailing. simpl orb.
    unfold key. rewrite s3_key_head. fold stripped_prefix.
    now destruct stripped_prefix.
Qed.

End KeysAndUrls.

(** C8, as stated, fails.  With nothing as the prefix the key begins with
    the joining separator, and the URL has two separators where the base and
    the key are joined. *)
Lemma empty_prefix_doubles_separator :
  let key := s3_key_of (S3_PREFIX Examples.cfg_no_prefix)
               (tts_filename (Examples.hex_of 0)) in
  let url := cdn_url_of (CDN_BASE Examples.cfg_no_prefix) key in
  doubled_separator_at url
    (String.length (PyStr.rstrip PyStr.slash (CDN_BASE Examples.cfg_no_prefix)))
  = true
  /\ url = "https://cdn.example.com//tts_aaaaaaaaaaaaaaaaaaaaaaaaaaaaaaa0.mp3"%string.
Proof. split; reflexivity. Qed.

(* ===================================================================== *)
(** * Further properties of the script *)
(* ===================================================================== *)

(** ** What a run sends, uploads and leaves behind *)

Section RunTrace.

Variable cfg : Config.
Variable ext : Services.
Variables voice_id model_id api_key : string.

Abbreviation request := (tts_request voice_id model_id api_key).
Abbreviation loop := (for_each cfg ext voice_id model_id api_key).
Abbreviation run paragraphs :=
  (synthesize_and_upload cfg ext paragraphs voice_id model_id api_key).
Abbreviation reply := (reply_to ext voice_id model_id api_key).
Abbreviation accepted_of := (accepted_texts ext voice_id model_id api_key).
Abbreviation bodies_of := (accepted_bodies ext voice_id model_id api_key).
Abbreviation entries := (entries_from cfg ext voice_id model_id).

Lemma accepted_texts_le (texts : list string) : forall n : nat,
  List.length (accepted_of n texts) <= List.length texts.
Proof.
  induction texts as [|text rest IH]; intros n; simpl; [lia|].
  specialize (IH (S n)). destruct (accepted (reply n text)); simpl; lia.
Qed.

Lemma accepted_bodies_length (texts : list string) : forall n : nat,
  List.length (bodies_of n texts) = List.length (accepted_of n texts).
Proof.
  induction texts as [|text rest IH]; intros n; simpl; [reflexivity|].
  destruct (accepted (reply n text)); simpl; now rewrite IH.
Qed.

Lemma upload_call_published (w : World) (data : bytes) :
  up_error (upload_call cfg ext w data) = None ->
  upload_call cfg ext w data = published cfg ext (w_uuids w) data.
Proof.
  unfold upload_call, published. simpl. now intros ->.
Qed.

(** The uploads of a loop that returns, and the files under temp/ that were
    there before. *)
Lemma for_each_uploads (texts : list string) :
  forall (st st' : Loop) (w w' : World),
    loop texts st w = (Returns st', w') ->
    w_uploads w'
    = w_uploads w
      ++ published_from cfg ext (w_uuids w) (bodies_of (List.length (w_posts w)) texts)
    /\ ((forall j, ~ In (nth_path ext j) (Dict.keys (w_temp w))) ->
        w_temp w' = w_temp w).
Proof.
  induction texts as [|text rest IH]; intros st st' w w' Hrun.
  - injection Hrun as <- <-. simpl. now rewrite app_nil_r.
  - rewrite for_each_cons in Hrun. simpl.
    destruct (accepted (reply (List.length (w_posts w)) text)) as [r|] eqn:Hacc.
    + destruct (up_error (upload_call cfg ext w (content r))) as [e|] eqn:Hup.
      * rewrite (loop_body_upload_failed cfg ext _ _ _ text st w r e Hacc Hup) in Hrun.
        discriminate.
      * rewrite (loop_body_published cfg ext _ _ _ text st w r Hacc Hup) in Hrun.
        apply IH in Hrun. simpl in Hrun.
        rewrite length_app, Nat.add_1_r, <- app_assoc in Hrun. simpl in Hrun.
        rewrite (upload_call_published w (content r) Hup) in Hrun.
        destruct Hrun as [Hupl Htemp]. split; [exact Hupl|].
        intros Hfree.
        rewrite (remove_absent (w_temp w) _ (Hfree (w_uuids w))) in Htemp.
        now apply Htemp.
    + rewrite (loop_body_rejected cfg ext _ _ _ text st w Hacc) in Hrun.
      apply IH in Hrun. simpl in Hrun.
      now rewrite length_app, Nat.add_1_r in Hrun.
Qed.

Lemma entries_from_urls (texts : list string) : forall (i : Z) (j : nat),
  map e_url (entries i j texts) = map (nth_url cfg ext) (seq j (List.length texts)).
Proof.
  induction texts as [|t ts IH]; intros i j; simpl; [reflexivity|].
  now rewrite IH.
Qed.

Lemma published_from_keys (bodies : list bytes) : forall j : nat,
  map up_key (published_from cfg ext j bodies)
  = map (nth_key cfg ext) (seq j (List.length bodies)).
Proof.
  induction bodies as [|b bs IH]; intros j; simpl; [reflexivity|].
  now rewrite IH.
Qed.

Lemma published_from_bodies (bodies : list bytes) : forall j : nat,
  map up_body (published_from cfg ext j bodies) = map Some bodies
  /\ Forall (fun u => up_error u = None /\ up_bucket u = AWS_BUCKET cfg)
       (published_from cfg ext j bodies).
Proof.
  induction bodies as [|b bs IH]; intros j; simpl; [split; [reflexivity | constructor]|].
  destruct (IH (S j)) as [Hb Hall]. rewrite Hb.
  split; [reflexivity|]. constructor; [split; reflexivity | exact Hall].
Qed.

(** X1.  A run that returns has one manifest entry per accepted synthesis,
    so never more entries than paragraphs. *)
Theorem manifest_no_larger_than_batch (paragraphs : dict string)
  (output : manifest) (w w' : World) :
  run paragraphs w = (Returns output, w') ->
  List.length output
  = List.length (accepted_of (List.length (w_posts w)) (Dict.values paragraphs))
  /\ List.length output <= List.length paragraphs.
Proof.
  intros Hrun.
  destruct (run_returns cfg ext _ _ _ _ _ _ _ Hrun) as (Hout & _).
  simpl in Hout.
  assert (Hlen : List.length output
                 = List.length (accepted_of (List.length (w_posts w))
                                  (Dict.values paragraphs)))
    by (now rewrite Hout, length_map, entries_from_length).
  split; [exact Hlen|].
  rewrite Hlen.
  pose proof (accepted_texts_le (Dict.values paragraphs) (List.length (w_posts w))) as Hle.
  unfold Dict.values in Hle at 2. now rewrite length_map in Hle.
Qed.

(** X2.  Whatever the outcome of a run, the synthesis requests it has added
    are those of the first [n] paragraphs, in input order, one request each:
    nothing is sent twice or out of order; [n] is the number of paragraphs
    when the run returns. *)
Theorem paragraphs_sent_once_in_order (paragraphs : dict string)
  (o : outcome manifest) (w w' : World) :
  run paragraphs w = (o, w') ->
  exists n,
    n <= List.length paragraphs
    /\ w_posts w' = w_posts w ++ map request (firstn n (Dict.values paragraphs))
    /\ (forall output, o = Returns output -> n = List.length paragraphs).
Proof.
  intros Hrun. destruct o as [output|e].
  - destruct (run_returns cfg ext _ _ _ _ _ _ _ Hrun) as (_ & Hposts & _).
    exists (List.length paragraphs). split; [lia|]. split; [|reflexivity].
    rewrite Hposts. do 2 f_equal. symmetry.
    unfold Dict.values. rewrite <- (length_map snd paragraphs). apply firstn_all.
  - rewrite run_unfold in Hrun.
    destruct (loop (Dict.values paragraphs) first_loop w) as [[st|e0] w0] eqn:Hloop;
      [discriminate|].
    injection Hrun as <- <-.
    destruct (for_each_raises cfg ext _ _ _ _ _ _ _ _ Hloop)
      as (msg & pre & text & post & r & st1 & w1 & _ & Ht & _ & _ & _ & Hp & _).
    exists (S (List.length pre)).
    assert (Hlen : List.length paragraphs = List.length pre + S (List.length post)).
    { rewrite <- (length_map snd paragraphs). fold (Dict.values paragraphs).
      rewrite Ht, length_app. reflexivity. }
    split; [lia|]. split; [|discriminate].
    rewrite Hp, Ht. do 2 f_equal.
    replace (S (List.length pre)) with (List.length pre + 1) by lia.
    rewrite firstn_app_2. reflexivity.
Qed.

(** X3.  The uploads a returning run has added are one per manifest entry,
    in order, each without error, into the configured bucket, carrying the
    bytes of the accepted reply unchanged; and the audio URL of every slide
    of the manifest is the CDN URL of the key of its upload. *)
Theorem manifest_urls_are_the_uploads (paragraphs : dict string)
  (output : manifest) (w w' : World) :
  run paragraphs w = (Returns output, w') ->
  let bodies := bodies_of (List.length (w_posts w)) (Dict.values paragraphs) in
  exists new,
    w_uploads w' = w_uploads w ++ new
    /\ List.length new = List.length output
    /\ map up_body new = map Some bodies
    /\ Forall (fun u => up_error u = None /\ up_bucket u = AWS_BUCKET cfg) new
    /\ map (fun kv => first_audio_url (Dict.items (snd kv))) output
       = map (fun u => Some (cdn_url_of (CDN_BASE cfg) (up_key u))) new.
Proof.
  intros Hrun bodies.
  destruct (run_returns cfg ext _ _ _ _ _ _ _ Hrun) as (Hout & _).
  simpl in Hout.
  rewrite run_unfold in Hrun.
  destruct (loop (Dict.values paragraphs) first_loop w) as [[st|e0] w0] eqn:Hloop;
    [|discriminate].
  injection Hrun as _ <-.
  destruct (for_each_uploads _ _ _ _ _ Hloop) as [Hupl _]. fold bodies in Hupl.
  exists (published_from cfg ext (w_uuids w) bodies).
  destruct (published_from_bodies bodies (w_uuids w)) as [Hb Hall].
  assert (Hlen : List.length bodies
                 = List.length (accepted_of (List.length (w_posts w))
                                  (Dict.values paragraphs)))
    by apply accepted_bodies_length.
  repeat split; try assumption.
  - rewrite <- (length_map up_key), published_from_keys, length_map, length_seq.
    now rewrite Hout, length_map, entries_from_length.
  - rewrite Hout, map_map.
    rewrite <- (map_map up_key (fun k => Some (cdn_url_of (CDN_BASE cfg) k))).
    rewrite published_from_keys, map_map, Hlen.
    rewrite <- (map_map (nth_url cfg ext) Some).
    rewrite <- (entries_from_urls
                  (accepted_of (List.length (w_posts w)) (Dict.values paragraphs))
                  2 (w_uuids w)), map_map.
    apply map_ext. intros e. apply first_audio_url_slide_entry.
Qed.

(** X4.  A run that returns leaves temp/ as it found it, when none of the
    files there has the name of a staged file: every file the run staged is
    removed, and no other file is touched. *)
Theorem temp_left_as_found (paragraphs : dict string)
  (output : manifest) (w w' : World) :
  run paragraphs w = (Returns output, w') ->
  (forall j, ~ In (nth_path ext j) (Dict.keys (w_temp w))) ->
  w_temp w' = w_temp w.
Proof.
  intros Hrun Hfree. rewrite run_unfold in Hrun.
  destruct (loop (Dict.values paragraphs) first_loop w) as [[st|e0] w0] eqn:Hloop;
    [|discriminate].
  injection Hrun as _ <-.
  now destruct (for_each_uploads _ _ _ _ _ Hloop) as [_ Htemp]; apply Htemp.
Qed.

End RunTrace.

(** ** The page around a run *)

Section PageFacts.

Variable cfg : Config.
Variable ext : Services.

Lemma st_show_shown (m : UiMsg) (w : World) : st_show m w = (Returns tt, shown w [m]).
Proof. reflexivity. Qed.

Lemma shown_shown (w : World) (a b : list UiMsg) :
  shown (shown w a) b = shown w (a ++ b).
Proof. unfold shown. simpl. now rewrite app_assoc. Qed.

Lemma shown_nil (w : World) : shown w [] = w.
Proof. unfold shown. rewrite app_nil_r. now destruct w. Qed.

(** The script past its three checks, when the three inputs are filled in. *)
Lemma script_run_filled_in (paragraphs : dict string)
  (api_key voice_id model_id : string) (clicked : bool) (sess : Session) (w : World) :
  api_key <> ""%string -> voice_id <> ""%string -> model_id <> ""%string ->
  script_run cfg ext paragraphs api_key voice_id model_id clicked sess w
  = match (if clicked
           then on_generate cfg ext paragraphs voice_id model_id api_key
           else ret sess) (shown w [Loaded (List.length paragraphs)]) with
    | (Returns sess', w1) =>
        match download_section sess' w1 with
        | (Returns _, w2) => (Returns sess', w2)
        | (Raises e, w2) => (Raises e, w2)
        end
    | (Raises e, w1) => (Raises e, w1)
    end.
Proof.
  intros Hk Hv Hm. apply String.eqb_neq in Hk, Hv, Hm.
  unfold script_run, bind. rewrite st_show_shown, Hk, Hv, Hm.
  destruct ((if clicked
             then on_generate cfg ext paragraphs voice_id model_id api_key
             else ret sess) (shown w [Loaded (List.length paragraphs)]))
    as [[sess'|e] w1]; [|reflexivity].
  destruct (download_section sess' w1) as [[u|e] w2]; reflexivity.
Qed.

(** The three ways the Generate block ends. *)
Lemma on_generate_cases (paragraphs : dict string)
  (api_key voice_id model_id : string) (w : World) :
  on_generate cfg ext paragraphs voice_id model_id api_key w
  = match synthesize_and_upload cfg ext paragraphs voice_id model_id api_key w with
    | (Returns [], w') => (Returns no_output, shown w' [NoAudioGenerated])
    | (Returns (kv :: rest), w') =>
        (Returns {| tts_output := Some (kv :: rest);
                    tts_timestamp := Some (clock ext) |},
         shown w' [DoneGenerated (List.length (kv :: rest))])
    | (Raises e, w') => (Returns no_output, shown w' [ErrorRaised e; Traceback e])
    end.
Proof.
  unfold on_generate, try_except, bind.
  destruct (synthesize_and_upload cfg ext paragraphs voice_id model_id api_key w)
    as [[[|kv rest]|e] w']; try reflexivity.
  unfold st_show, ret, shown. simpl. now rewrite <- app_assoc.
Qed.

Lemma download_section_no_output (w : World) :
  download_section no_output w = (Returns tt, w).
Proof. reflexivity. Qed.

(** X5.  Generate pressed with the inputs filled in, and the pipeline raises
    or returns the empty manifest: whatever the session held before, it holds
    no output and no timestamp afterwards, the page gets the one report of
    the failure and no download button. *)
Theorem failed_or_empty_run_clears_session (paragraphs : dict string)
  (api_key voice_id model_id : string) (sess : Session) (w w2 : World)
  (o : outcome manifest) :
  api_key <> ""%string -> voice_id <> ""%string -> model_id <> ""%string ->
  synthesize_and_upload cfg ext paragraphs voice_id model_id api_key
    (shown w [Loaded (List.length paragraphs)]) = (o, w2) ->
  (forall kv rest, o <> Returns (kv :: rest)) ->
  exists msgs,
    script_run cfg ext paragraphs api_key voice_id model_id true sess w
    = (Returns no_output, shown w2 msgs)
    /\ filter is_download msgs = []
    /\ (msgs = [NoAudioGenerated] \/ exists e, msgs = [ErrorRaised e; Traceback e]).
Proof.
  intros Hk Hv Hm Hrun Hnone.
  rewrite (script_run_filled_in _ _ _ _ _ _ _ Hk Hv Hm), on_generate_cases, Hrun.
  destruct o as [[|kv rest]|e].
  - exists [NoAudioGenerated]. rewrite download_section_no_output. auto.
  - exfalso. now apply (Hnone kv rest).
  - exists [ErrorRaised e; Traceback e]. rewrite download_section_no_output.
    repeat split; eauto.
Qed.

Lemma download_section_services (sess : Session) (w : World) :
  same_services (snd (download_section sess w)) w.
Proof.
  unfold download_section, same_services.
  destruct (tts_output sess) as [output|]; [|now simpl].
  destruct (tts_timestamp sess) as [timestamp|]; [|now simpl].
  destruct (Dict.truthy output && negb (String.eqb timestamp "")); [|now simpl].
  unfold bind, lift. rewrite st_show_shown.
  destruct (generate_csv_links output); simpl; auto.
Qed.

(** X6.  A run of the script in which Generate was not pressed calls no
    service: no synthesis request, no uuid, no file under temp/, no upload,
    whatever the inputs and whatever the session holds; and when the script
    runs to its end the session is as it was. *)
Theorem rerun_without_click_calls_no_service (paragraphs : dict string)
  (api_key voice_id model_id : string) (sess : Session) (w : World) :
  let r := script_run cfg ext paragraphs api_key voice_id model_id false sess w in
  same_services (snd r) w
  /\ (forall sess', fst r = Returns sess' -> sess' = sess).
Proof.
  intros r. remember r as r0 eqn:Hr. unfold r in Hr. clear r.
  unfold script_run, bind in Hr. rewrite st_show_shown in Hr.
  destruct (String.eqb api_key "");
    [subst r0; simpl; split; [unfold same_services; simpl; auto | congruence]|].
  destruct (String.eqb voice_id "");
    [subst r0; simpl; split; [unfold same_services; simpl; auto | congruence]|].
  destruct (String.eqb model_id "");
    [subst r0; simpl; split; [unfold same_services; simpl; auto | congruence]|].
  unfold ret at 1 in Hr.
  pose proof (download_section_services sess
                (shown w [Loaded (List.length paragraphs)])) as Hs.
  destruct (download_section sess (shown w [Loaded (List.length paragraphs)]))
    as [[u|e] w1]; subst r0; simpl in *;
    (split; [|congruence]);
    unfold same_services in *; simpl in Hs; exact Hs.
Qed.

Lemma script_run_incomplete (paragraphs : dict string)
  (api_key voice_id model_id : string) (clicked : bool) (sess : Session) (w : World) :
  api_key = ""%string \/ voice_id = ""%string \/ model_id = ""%string ->
  script_run cfg ext paragraphs api_key voice_id model_id clicked sess w
  = (Returns sess,
     shown w [Loaded (List.length paragraphs);
              if String.eqb api_key "" then ApiKeyRequired
              else if String.eqb voice_id "" then EnterVoiceId
              else EnterModelId]).
Proof.
  intros H. unfold script_run, bind. rewrite !st_show_shown.
  destruct (String.eqb_spec api_key "") as [_|Hk];
    [rewrite st_show_shown, shown_shown; reflexivity|].
  destruct (String.eqb_spec voice_id "") as [_|Hv];
    [rewrite st_show_shown, shown_shown; reflexivity|].
  destruct (String.eqb_spec model_id "") as [_|Hm];
    [rewrite st_show_shown, shown_shown; reflexivity|].
  exfalso. destruct H as [H|[H|H]]; contradiction.
Qed.

(** X7.  With the API key, the voice ID or the model ID empty, the script
    shows the count of paragraphs and one request for the first input that is
    missing, in this order, and nothing else happens, pressed or not: no
    service is called and the session stays as it was. *)
Theorem incomplete_inputs_send_nothing (paragraphs : dict string)
  (api_key voice_id model_id : string) (clicked : bool) (sess : Session) (w : World) :
  api_key = ""%string \/ voice_id = ""%string \/ model_id = ""%string ->
  exists msg,
    script_run cfg ext paragraphs api_key voice_id model_id clicked sess w
    = (Returns sess, shown w [Loaded (List.length paragraphs); msg])
    /\ msg = (if String.eqb api_key "" then ApiKeyRequired
              else if String.eqb voice_id "" then EnterVoiceId
              else EnterModelId)
    /\ same_services (shown w [Loaded (List.length paragraphs); msg]) w.
Proof.
  intros H. eexists. split; [now apply script_run_incomplete|].
  split; [reflexivity|]. unfold same_services, shown. simpl. auto.
Qed.

(** X8.  Generate pressed with the inputs filled in, and the pipeline
    returns a manifest that is not empty: the session holds this manifest
    and the time of the run, and the page offers its JSON document and its
    link list, which [generate_csv_links] returns without raising, under
    file names that carry the time. *)
Theorem successful_run_offers_its_exports (paragraphs : dict string)
  (api_key voice_id model_id : string) (sess : Session) (w w2 : World)
  (output : manifest) :
  api_key <> ""%string -> voice_id <> ""%string -> model_id <> ""%string ->
  clock ext <> ""%string ->
  synthesize_and_upload cfg ext paragraphs voice_id model_id api_key
    (shown w [Loaded (List.length paragraphs)]) = (Returns output, w2) ->
  output <> [] ->
  exists csv,
    generate_csv_links output = Returns csv
    /\ script_run cfg ext paragraphs api_key voice_id model_id true sess w
       = (Returns {| tts_output := Some output; tts_timestamp := Some (clock ext) |},
          shown w2 [DoneGenerated (List.length output);
                    DownloadJson (to_document output)
                      ("Output_data_" ++ clock ext ++ ".json");
                    DownloadCsv csv ("audio_links_" ++ clock ext ++ ".csv")]).
Proof.
  intros Hk Hv Hm Hclock Hrun Hne.
  destruct (run_returns cfg ext _ _ _ _ _ _ _ Hrun) as (Hout & _).
  simpl in Hout.
  assert (Hcsv : exists csv, generate_csv_links output = Returns csv).
  { unfold generate_csv_links. rewrite Hout, csv_rows_of_entries; [eauto|].
    apply sorted_NoDup, entries_from_sorted. }
  destruct Hcsv as [csv Hcsv]. exists csv. split; [exact Hcsv|].
  rewrite (script_run_filled_in _ _ _ _ _ _ _ Hk Hv Hm), on_generate_cases, Hrun.
  destruct output as [|kv rest]; [contradiction|].
  unfold download_section. cbn [tts_output tts_timestamp Dict.truthy andb].
  apply String.eqb_neq in Hclock. rewrite Hclock. cbn [negb].
  unfold bind, lift. rewrite st_show_shown, Hcsv, st_show_shown, !shown_shown.
  reflexivity.
Qed.

End PageFacts.

(** ** The link list of any manifest *)

Section LinkListFacts.

#[local] Open Scope string_scope.

(** The first key function that raises ends [sorted]. *)
Lemma decorate_raises (f : string -> outcome Z) (xs : list string) :
  (exists x e, In x xs /\ f x = Raises e) ->
  exists x e, In x xs /\ f x = Raises e /\ decorate f xs = Raises e.
Proof.
  induction xs as [|x xs IH]; simpl.
  - intros (x & e & [] & _).
  - intros (y & e & Hin & Hy). destruct (f x) as [k|e0] eqn:Hx.
    + destruct Hin as [<-|Hin]; [congruence|].
      destruct IH as (x' & e' & Hin' & Hx' & Hd); [eauto|].
      exists x', e'. rewrite Hd. auto.
    + exists x, e0. auto.
Qed.

Lemma int_literal_chars (d : Decimal.int) :
  all_chars decimal_char (NilZero.string_of_int d) = true.
Proof.
  unfold NilZero.string_of_int, NilZero.string_of_uint.
  destruct d as [u|u]; destruct u; simpl; auto using uint_chars.
Qed.

(** What [int] reads is made of digits and the sign. *)
Lemma int_some_chars (s : string) (n : Z) :
  PyStr.int s = Some n -> all_chars decimal_char s = true.
Proof.
  unfold PyStr.int. destruct (NilZero.int_of_string s) as [d|] eqn:E; [|discriminate].
  intros _. apply NilZero.sis in E. rewrite <- E. apply int_literal_chars.
Qed.

Lemma letter_not_decimal (c : ascii) :
  ascii_letter c = true -> decimal_char c = false.
Proof.
  unfold ascii_letter, decimal_char. intros H.
  destruct (Ascii.eqb_spec c "-") as [->|_]; [discriminate H|].
  rewrite orb_false_l. apply andb_false_iff.
  rewrite !Nat.leb_gt.
  apply orb_true_iff in H. rewrite !andb_true_iff, !Nat.leb_le in H. lia.
Qed.

Lemma letter_no_int (s : string) :
  any_char ascii_letter s = true -> PyStr.int s = None.
Proof.
  intros H. destruct (PyStr.int s) as [n|] eqn:E; [|reflexivity].
  apply int_some_chars in E. exfalso.
  induction s as [|c s IH]; simpl in *; [discriminate H|].
  apply andb_true_iff in E as [Ec Es].
  apply orb_true_iff in H as [Hc|Hs]; [|now apply IH].
  apply letter_not_decimal in Hc. congruence.
Qed.

(** X9.  A key that, with every [slide] taken out of it, is empty or holds
    an ASCII letter makes the export raise [ValueError], whatever the other
    keys and slides are: no row is skipped and no text is returned. *)
Theorem csv_export_raises_on_malformed_key (output : dict (dict string)) (k : string) :
  In k (Dict.keys output) ->
  (PyStr.replace k "slide" "" = ""
   \/ any_char ascii_letter (PyStr.replace k "slide" "") = true) ->
  exists s, generate_csv_links output = Raises (ValueError s).
Proof.
  intros Hin Hbad.
  assert (Hk : slide_number k = Raises (ValueError (PyStr.replace k "slide" ""))).
  { unfold slide_number. destruct Hbad as [-> | Hletter]; [reflexivity|].
    now rewrite (letter_no_int _ Hletter). }
  destruct (decorate_raises slide_number (Dict.keys output)) as (x & e & _ & Hx & Hd);
    [eauto|].
  unfold generate_csv_links, generate_csv_rows, sorted. rewrite Hd.
  unfold slide_number in Hx.
  destruct (PyStr.int (PyStr.replace x "slide" "")); [discriminate|].
  injection Hx as <-. eauto.
Qed.

(** X10.  For a manifest of entries with distinct slide numbers, inserted
    in any order, the rows of the link list are the header and then the audio
    URLs of all the entries, each once, by ascending slide number. *)
Theorem link_list_any_insertion_order (es : list Entry) :
  NoDup (map e_index es) ->
  exists ordered,
    Permutation ordered es
    /\ StronglySorted Z.le (map e_index ordered)
    /\ generate_csv_rows (map entry_item es)
       = Returns (["Link"] :: map (fun e => [e_url e]) ordered).
Proof.
  intros Hnd. exists (sort_entries es).
  split; [apply sort_entries_perm|].
  split; [apply sort_entries_sorted | now apply csv_rows_of_entries].
Qed.

Lemma concat_empty_cons (x : string) (xs : list string) :
  String.concat "" (x :: xs) = x ++ String.concat "" xs.
Proof. destruct xs; simpl; [now rewrite append_nil_r | reflexivity]. Qed.

Lemma writerow_plain (u : string) :
  u <> "" -> Csv.needs_quotes u = false -> Csv.writerow [u] = u ++ Csv.crlf.
Proof.
  intros Hne Hq. unfold Csv.writerow, Csv.render_field.
  destruct u as [|c u]; [contradiction|]. simpl String.concat. now rewrite Hq.
Qed.

Lemma written_plain (urls : list string) :
  Forall (fun u => u <> "" /\ Csv.needs_quotes u = false) urls ->
  Csv.written (map (fun u => [u]) urls)
  = String.concat "" (map (fun u => u ++ Csv.crlf) urls).
Proof.
  unfold Csv.written. induction 1 as [|u urls [Hne Hq] Hall IH]; [reflexivity|].
  cbn [map]. now rewrite !concat_empty_cons, IH, writerow_plain.
Qed.

(** X11.  Where no audio URL is empty or holds a comma, a quote or a line
    break, the CSV text is the line [Link] and then one line per entry, the
    URL as it is, every line ended by CR LF; the lines are those of all the
    entries, each once, by ascending slide number. *)
Theorem link_list_text_one_url_per_line (es : list Entry) :
  NoDup (map e_index es) ->
  Forall (fun e => e_url e <> "" /\ Csv.needs_quotes (e_url e) = false) es ->
  exists ordered,
    Permutation ordered es
    /\ StronglySorted Z.le (map e_index ordered)
    /\ generate_csv_links (map entry_item es)
       = Returns ("Link" ++ Csv.crlf
                  ++ String.concat "" (map (fun e => e_url e ++ Csv.crlf) ordered)).
Proof.
  intros Hnd Hplain. exists (sort_entries es).
  split; [apply sort_entries_perm|]. split; [apply sort_entries_sorted|].
  unfold generate_csv_links.
  rewrite (csv_rows_of_entries es Hnd). f_equal.
  unfold Csv.written. cbn [map]. rewrite concat_empty_cons.
  change (Csv.writerow ["Link"]) with ("Link" ++ Csv.crlf).
  rewrite append_assoc. do 2 f_equal.
  rewrite <- (map_map e_url (fun u => [u])).
  fold (Csv.written (map (fun u => [u]) (map e_url (sort_entries es)))).
  rewrite written_plain, map_map; [reflexivity|].
  apply Forall_forall. intros u Hin. apply in_map_iff in Hin as (e & <- & Hin).
  rewrite Forall_forall in Hplain. apply Hplain.
  eapply Permutation_in; [apply sort_entries_perm | exact Hin].
Qed.

End LinkListFacts.

(** ** Where the API key goes *)

Section ApiKey.

Variable cfg : Config.
Variable ext : Services.
Variables voice_id model_id : string.
Variables key1 key2 : string.

(** The synthesis service answers the two keys alike. *)
Hypothesis same_replies : forall n text,
  reply_to ext voice_id model_id key1 n text = reply_to ext voice_id model_id key2 n text.

Lemma upload_call_same (w1 w2 : World) (data : bytes) :
  same_but_requests w1 w2 ->
  upload_call cfg ext w1 data = upload_call cfg ext w2 data.
Proof.
  intros (_ & Hu & _ & Hup & _). unfold upload_call. now rewrite Hu, Hup.
Qed.

Lemma loop_body_same (text : string) (st : Loop) (w1 w2 : World) :
  same_but_requests w1 w2 ->
  fst (loop_body cfg ext voice_id model_id key1 text st w1)
  = fst (loop_body cfg ext voice_id model_id key2 text st w2)
  /\ same_but_requests (snd (loop_body cfg ext voice_id model_id key1 text st w1))
       (snd (loop_body cfg ext voice_id model_id key2 text st w2)).
Proof.
  intros Hsame.
  pose proof (upload_call_same w1 w2) as Hcall.
  destruct Hsame as (Hl & Hu & Ht & Hup & Hui).
  assert (Hsame : same_but_requests w1 w2) by (repeat split; assumption).
  pose proof (same_replies (List.length (w_posts w1)) text) as Hr.
  destruct (accepted (reply_to ext voice_id model_id key1 (List.length (w_posts w1)) text))
    as [r|] eqn:Hacc1.
  - assert (Hacc2 : accepted (reply_to ext voice_id model_id key2
                                (List.length (w_posts w2)) text) = Some r)
      by (now rewrite <- Hl, <- Hr).
    destruct (up_error (upload_call cfg ext w1 (content r))) as [e|] eqn:Hup1.
    + assert (Hup2 : up_error (upload_call cfg ext w2 (content r)) = Some e)
        by (now rewrite <- (Hcall (content r) Hsame)).
      rewrite (loop_body_upload_failed cfg ext _ _ _ text st w1 r e Hacc1 Hup1).
      rewrite (loop_body_upload_failed cfg ext _ _ _ text st w2 r e Hacc2 Hup2).
      unfold same_but_requests. simpl.
      rewrite !length_app, Hl, Hu, Ht, Hup, Hui, (Hcall (content r) Hsame).
      repeat split.
    + assert (Hup2 : up_error (upload_call cfg ext w2 (content r)) = None)
        by (now rewrite <- (Hcall (content r) Hsame)).
      rewrite (loop_body_published cfg ext _ _ _ text st w1 r Hacc1 Hup1).
      rewrite (loop_body_published cfg ext _ _ _ text st w2 r Hacc2 Hup2).
      unfold same_but_requests. simpl.
      rewrite !length_app, Hl, Hu, Ht, Hup, Hui, (Hcall (content r) Hsame).
      repeat split.
  - assert (Hacc2 : accepted (reply_to ext voice_id model_id key2
                                (List.length (w_posts w2)) text) = None)
      by (now rewrite <- Hl, <- Hr).
    rewrite (loop_body_rejected cfg ext _ _ _ text st w1 Hacc1).
    rewrite (loop_body_rejected cfg ext _ _ _ text st w2 Hacc2).
    unfold same_but_requests. simpl.
    rewrite !length_app, <- Hl, <- Hr, Hu, Ht, Hup, Hui.
    repeat split.
Qed.

Lemma for_each_same (texts : list string) :
  forall (st : Loop) (w1 w2 : World),
    same_but_requests w1 w2 ->
    fst (for_each cfg ext voice_id model_id key1 texts st w1)
    = fst (for_each cfg ext voice_id model_id key2 texts st w2)
    /\ same_but_requests (snd (for_each cfg ext voice_id model_id key1 texts st w1))
         (snd (for_each cfg ext voice_id model_id key2 texts st w2)).
Proof.
  induction texts as [|text rest IH]; intros st w1 w2 Hsame; [now simpl|].
  rewrite !for_each_cons.
  destruct (loop_body_same text st w1 w2 Hsame) as [Hfst Hsnd].
  destruct (loop_body cfg ext voice_id model_id key1 text st w1) as [[st1|e1] w1'];
    destruct (loop_body cfg ext voice_id model_id key2 text st w2) as [[st2|e2] w2'];
    simpl in Hfst, Hsnd; try discriminate.
  - injection Hfst as <-. now apply IH.
  - simpl. split; [exact Hfst | exact Hsnd].
Qed.

(** X12.  The API key reaches the synthesis requests and nothing else.  With
    a service that answers two keys alike, the runs under the two keys give
    the same outcome, the same manifest or the same exception, and the same
    uploads, files under temp/ and messages on the page, and send equally
    many requests. *)
Theorem api_key_stays_in_requests (paragraphs : dict string) (w1 w2 : World) :
  same_but_requests w1 w2 ->
  fst (synthesize_and_upload cfg ext paragraphs voice_id model_id key1 w1)
  = fst (synthesize_and_upload cfg ext paragraphs voice_id model_id key2 w2)
  /\ same_but_requests
       (snd (synthesize_and_upload cfg ext paragraphs voice_id model_id key1 w1))
       (snd (synthesize_and_upload cfg ext paragraphs voice_id model_id key2 w2)).
Proof.
  intros Hsame. rewrite !run_unfold.
  destruct (for_each_same (Dict.values paragraphs) first_loop w1 w2 Hsame)
    as [Hfst Hsnd].
  destruct (for_each cfg ext voice_id model_id key1 (Dict.values paragraphs)
              first_loop w1) as [[st1|e1] w1'];
    destruct (for_each cfg ext voice_id model_id key2 (Dict.values paragraphs)
                first_loop w2) as [[st2|e2] w2'];
    simpl in Hfst, Hsnd; try discriminate; simpl.
  - injection Hfst as <-. split; [reflexivity | exact Hsnd].
  - injection Hfst as <-. split; [reflexivity | exact Hsnd].
Qed.

End ApiKey.

(** ** Startup *)

Section Startup.

#[local] Open Scope string_scope.

(** X15.  The configuration is read exactly when the secrets have an [aws]
    section with all six settings, and it then holds these six values, each
    under its own name. *)
Lemma load_aws_config_inr (secrets : secrets_file) (cfg : Config) :
  load_aws_config secrets = inr cfg <->
  exists aws,
    Dict.get secrets "aws" = Some aws
    /\ Dict.get aws "AWS_ACCESS_KEY" = Some (AWS_ACCESS_KEY cfg)
    /\ Dict.get aws "AWS_SECRET_KEY" = Some (AWS_SECRET_KEY cfg)
    /\ Dict.get aws "AWS_REGION" = Some (AWS_REGION cfg)
    /\ Dict.get aws "AWS_BUCKET" = Some (AWS_BUCKET cfg)
    /\ Dict.get aws "S3_PREFIX" = Some (S3_PREFIX cfg)
    /\ Dict.get aws "CDN_BASE" = Some (CDN_BASE cfg).
Proof.
  unfold load_aws_config, aws_setting.
  destruct (Dict.get secrets "aws") as [aws|];
    [|split; [discriminate | intros (a & H & _); discriminate]].
  split.
  - destruct (Dict.get aws "AWS_ACCESS_KEY") eqn:H1; [|discriminate].
    destruct (Dict.get aws "AWS_SECRET_KEY") eqn:H2; [|discriminate].
    destruct (Dict.get aws "AWS_REGION") eqn:H3; [|discriminate].
    destruct (Dict.get aws "AWS_BUCKET") eqn:H4; [|discriminate].
    destruct (Dict.get aws "S3_PREFIX") eqn:H5; [|discriminate].
    destruct (Dict.get aws "CDN_BASE") eqn:H6; [|discriminate].
    intros [= <-]. exists aws. simpl. repeat split; assumption.
  - intros (a & [= <-] & -> & -> & -> & -> & -> & ->). now destruct cfg.
Qed.

(** X13.  The script stops at startup exactly when the [aws] section or one
    of its six settings is missing from the secrets; it then reports a
    missing key, [aws] or a setting that is not there, every setting the
    script reads before it being there, and it renders nothing and calls no
    service.  Otherwise the run goes on with the six settings as its
    configuration. *)
Theorem script_stops_on_missing_aws_setting (secrets : secrets_file) (ext : Services)
  (uploaded : option (dict string)) (voice_entry model_entry : option string)
  (clicked : bool) (sess : Session) (w : World) :
  match app secrets ext uploaded voice_entry model_entry clicked sess w with
  | Stopped k =>
      (Dict.get secrets "aws" = None /\ k = "aws")
      \/ (exists aws before after,
            Dict.get secrets "aws" = Some aws
            /\ aws_keys = (before ++ k :: after)%list
            /\ Dict.get aws k = None
            /\ Forall (fun k' => Dict.get aws k' <> None) before)
  | Rendered _ =>
      exists aws,
        Dict.get secrets "aws" = Some aws
        /\ Forall (fun k => Dict.get aws k <> None) aws_keys
  end.
Proof.
  unfold app, load_aws_config, aws_setting.
  destruct (Dict.get secrets "aws") as [aws|]; [|left; split; reflexivity].
  destruct (Dict.get aws "AWS_ACCESS_KEY") eqn:H1;
    [|right; exists aws, [], (tl aws_keys); repeat split; auto].
  destruct (Dict.get aws "AWS_SECRET_KEY") eqn:H2;
    [|right; exists aws, (firstn 1 aws_keys), (skipn 2 aws_keys); repeat split; auto;
      repeat constructor; congruence].
  destruct (Dict.get aws "AWS_REGION") eqn:H3;
    [|right; exists aws, (firstn 2 aws_keys), (skipn 3 aws_keys); repeat split; auto;
      repeat constructor; congruence].
  destruct (Dict.get aws "AWS_BUCKET") eqn:H4;
    [|right; exists aws, (firstn 3 aws_keys), (skipn 4 aws_keys); repeat split; auto;
      repeat constructor; congruence].
  destruct (Dict.get aws "S3_PREFIX") eqn:H5;
    [|right; exists aws, (firstn 4 aws_keys), (skipn 5 aws_keys); repeat split; auto;
      repeat constructor; congruence].
  destruct (Dict.get aws "CDN_BASE") eqn:H6;
    [|right; exists aws, (firstn 5 aws_keys), (skipn 6 aws_keys); repeat split; auto;
      repeat constructor; congruence].
  assert (Hall : Forall (fun k => Dict.get aws k <> None) aws_keys)
    by (repeat constructor; congruence).
  destruct uploaded; exists aws; split; auto.
Qed.

Lemma get_or_fallback_empty (d : dict string) (primary fallback : string) :
  (Dict.get d primary = None \/ Dict.get d primary = Some "") ->
  (Dict.get d fallback = None \/ Dict.get d fallback = Some "") ->
  get_or_fallback d primary fallback = "".
Proof.
  unfold get_or_fallback. intros [-> | ->] [-> | ->]; reflexivity.
Qed.

(** X14.  With the AWS settings in place and no API key in the secrets (in
    the [elevenlabs] section, [ELEVENLABS_API_KEY] missing or empty and
    [api_key] missing or empty), a run of the script on an uploaded file asks
    for the key and does nothing else, whatever is typed and pressed or not:
    no service is called and the session stays as it was. *)
Theorem no_api_key_in_secrets_sends_nothing (secrets : secrets_file) (ext : Services)
  (cfg : Config) (paragraphs : dict string) (voice_entry model_entry : option string)
  (clicked : bool) (sess : Session) (w : World) :
  load_aws_config secrets = inr cfg ->
  (let section := section_or_empty secrets "elevenlabs" in
   (Dict.get section "ELEVENLABS_API_KEY" = None
    \/ Dict.get section "ELEVENLABS_API_KEY" = Some "")
   /\ (Dict.get section "api_key" = None \/ Dict.get section "api_key" = Some "")) ->
  app secrets ext (Some paragraphs) voice_entry model_entry clicked sess w
  = Rendered (Returns sess,
              shown w [Loaded (List.length paragraphs); ApiKeyRequired]).
Proof.
  intros Hcfg [Hprimary Hfallback]. unfold app. rewrite Hcfg.
  assert (Hkey : ELEVENLABS_API_KEY secrets = "")
    by (now apply get_or_fallback_empty).
  rewrite Hkey. f_equal.
  rewrite script_run_incomplete by (now left). reflexivity.
Qed.

End Startup.

(** ** Sample runs of the further properties *)

(** Three paragraphs, the second rejected: two entries. *)
Lemma manifest_no_larger_than_batch_witness :
  exists output w',
    Examples.run_on Examples.cfg0 Examples.second_rejected Examples.three_paragraphs
    = (Returns output, w')
    /\ List.length output = 2
    /\ List.length output <= List.length Examples.three_paragraphs.
Proof.
  destruct (Examples.run_on Examples.cfg0 Examples.second_rejected
              Examples.three_paragraphs) as [[output|e] w'] eqn:E.
  - exists output, w'. split; [reflexivity|].
    destruct (manifest_no_larger_than_batch
                Examples.cfg0 Examples.second_rejected "voice" "model" "key"
                Examples.three_paragraphs output fresh_world w' E) as [Hlen Hle].
    split; [rewrite Hlen; vm_compute; reflexivity | exact Hle].
  - vm_compute in E. discriminate E.
Defined.

(** Two paragraphs, the first upload refused: one request was sent. *)
Lemma paragraphs_sent_once_in_order_witness :
  exists o w' n,
    Examples.run_on Examples.cfg0 Examples.first_upload_denied Examples.two_paragraphs
    = (o, w')
    /\ n <= List.length Examples.two_paragraphs
    /\ w_posts w'
       = w_posts fresh_world
         ++ map (tts_request "voice" "model" "key")
              (firstn n (Dict.values Examples.two_paragraphs)).
Proof.
  destruct (Examples.run_on Examples.cfg0 Examples.first_upload_denied
              Examples.two_paragraphs) as [o w'] eqn:E.
  destruct (paragraphs_sent_once_in_order
              Examples.cfg0 Examples.first_upload_denied "voice" "model" "key"
              Examples.two_paragraphs o fresh_world w' E) as (n & Hn & Hp & _).
  exists o, w', n. split; [reflexivity|]. split; [exact Hn | exact Hp].
Defined.

(** Two paragraphs, all published: two uploads, one per entry. *)
Lemma manifest_urls_are_the_uploads_witness :
  exists output w' new,
    Examples.run_on Examples.cfg0 Examples.all_fine Examples.two_paragraphs
    = (Returns output, w')
    /\ w_uploads w' = w_uploads fresh_world ++ new
    /\ List.length new = List.length output.
Proof.
  destruct (Examples.run_on Examples.cfg0 Examples.all_fine Examples.two_paragraphs)
    as [[output|e] w'] eqn:E.
  - destruct (manifest_urls_are_the_uploads
                Examples.cfg0 Examples.all_fine "voice" "model" "key"
                Examples.two_paragraphs output fresh_world w' E)
      as (new & Hup & Hlen & _).
    exists output, w', new. split; [reflexivity|]. split; [exact Hup | exact Hlen].
  - vm_compute in E. discriminate E.
Defined.

(** A run in a temp/ that holds a file of its own. *)
Lemma temp_left_as_found_witness :
  exists output w',
    synthesize_and_upload Examples.cfg0 Examples.all_fine Examples.two_paragraphs
      "voice" "model" "key" Examples.with_notes = (Returns output, w')
    /\ w_temp w' = w_temp Examples.with_notes.
Proof.
  destruct (synthesize_and_upload Examples.cfg0 Examples.all_fine
              Examples.two_paragraphs "voice" "model" "key" Examples.with_notes)
    as [[output|e] w'] eqn:E.
  - exists output, w'. split; [reflexivity|].
    apply (temp_left_as_found Examples.cfg0 Examples.all_fine "voice" "model" "key"
             Examples.two_paragraphs output Examples.with_notes w' E).
    intros j [H|[]]. unfold nth_path, temp_path in H. simpl in H. discriminate H.
  - vm_compute in E. discriminate E.
Defined.

(** The upload is refused while the session holds an earlier output. *)
Lemma failed_or_empty_run_clears_session_witness :
  exists msgs w2,
    script_run Examples.cfg0 Examples.first_upload_denied Examples.one_paragraph
      "key" "voice" "model" true Examples.stale_session fresh_world
    = (Returns no_output, shown w2 msgs)
    /\ filter is_download msgs = [].
Proof.
  destruct (synthesize_and_upload Examples.cfg0 Examples.first_upload_denied
              Examples.one_paragraph "voice" "model" "key"
              (shown fresh_world [Loaded (List.length Examples.one_paragraph)]))
    as [o w2] eqn:E.
  pose proof E as E'. vm_compute in E'. injection E' as <- <-.
  assert (Hk : "key"%string <> ""%string) by discriminate.
  assert (Hv : "voice"%string <> ""%string) by discriminate.
  assert (Hm : "model"%string <> ""%string) by discriminate.
  destruct (failed_or_empty_run_clears_session
              Examples.cfg0 Examples.first_upload_denied Examples.one_paragraph
              "key" "voice" "model" Examples.stale_session fresh_world _ _
              Hk Hv Hm E)
    as (msgs & Hrun & Hnone & _); [discriminate|].
  eexists. eexists. split; [exact Hrun | exact Hnone].
Defined.

(** The voice ID is left empty. *)
Lemma incomplete_inputs_send_nothing_witness :
  exists msg,
    script_run Examples.cfg0 Examples.all_fine Examples.two_paragraphs
      "key" "" "model" true no_output fresh_world
    = (Returns no_output,
       shown fresh_world [Loaded (List.length Examples.two_paragraphs); msg])
    /\ msg = EnterVoiceId.
Proof.
  destruct (incomplete_inputs_send_nothing
              Examples.cfg0 Examples.all_fine Examples.two_paragraphs
              "key" "" "model" true no_output fresh_world)
    as (msg & Hrun & Hmsg & _); [right; left; reflexivity|].
  exists msg. split; [exact Hrun | exact Hmsg].
Defined.

(** Two paragraphs, all published, from the page. *)
Lemma successful_run_offers_its_exports_witness :
  exists sess' w',
    script_run Examples.cfg0 Examples.all_fine Examples.two_paragraphs
      "key" "voice" "model" true no_output fresh_world = (Returns sess', w')
    /\ tts_timestamp sess' = Some "20240101_120000"%string
    /\ List.length (filter is_download (w_ui w')) = 2.
Proof.
  destruct (synthesize_and_upload Examples.cfg0 Examples.all_fine
              Examples.two_paragraphs "voice" "model" "key"
              (shown fresh_world [Loaded (List.length Examples.two_paragraphs)]))
    as [o w2] eqn:E.
  pose proof E as E'. vm_compute in E'. injection E' as <- <-.
  assert (Hk : "key"%string <> ""%string) by discriminate.
  assert (Hv : "voice"%string <> ""%string) by discriminate.
  assert (Hm : "model"%string <> ""%string) by discriminate.
  assert (Hc : clock Examples.all_fine <> ""%string) by discriminate.
  destruct (successful_run_offers_its_exports
              Examples.cfg0 Examples.all_fine Examples.two_paragraphs
              "key" "voice" "model" no_output fresh_world _ _
              Hk Hv Hm Hc E)
    as (csv & _ & Hrun); [discriminate|].
  eexists. eexists. split; [exact Hrun|]. split; reflexivity.
Defined.

(** Slides 2, 10, 9. *)
Lemma link_list_any_insertion_order_witness :
  exists ordered,
    Permutation ordered Examples.shuffled
    /\ generate_csv_rows (map entry_item Examples.shuffled)
       = Returns (["Link"%string] :: map (fun e => [e_url e]) ordered).
Proof.
  destruct (link_list_any_insertion_order Examples.shuffled)
    as (ordered & Hperm & _ & Hrows).
  - repeat constructor; simpl; intuition discriminate.
  - exists ordered. split; [exact Hperm | exact Hrows].
Defined.

Lemma link_list_text_one_url_per_line_witness :
  exists ordered,
    Permutation ordered Examples.shuffled
    /\ StronglySorted Z.le (map e_index ordered)
    /\ generate_csv_links (map entry_item Examples.shuffled)
       = Returns ("Link" ++ Csv.crlf
                  ++ String.concat "" (map (fun e => e_url e ++ Csv.crlf) ordered))%string.
Proof.
  apply (link_list_text_one_url_per_line Examples.shuffled).
  - repeat constructor; simpl; intuition discriminate.
  - repeat constructor; discriminate.
Defined.

(** A manifest with a key that names no slide. *)
Lemma csv_export_raises_on_malformed_key_witness :
  exists s, generate_csv_links [("intro"%string, [])] = Raises (ValueError s).
Proof.
  apply (csv_export_raises_on_malformed_key [("intro"%string, [])] "intro"%string).
  - left. reflexivity.
  - right. reflexivity.
Defined.

(** A service that does not look at the key, under two keys. *)
Lemma api_key_stays_in_requests_witness :
  fst (synthesize_and_upload Examples.cfg0 Examples.all_fine Examples.two_paragraphs
         "voice" "model" "key-one" fresh_world)
  = fst (synthesize_and_upload Examples.cfg0 Examples.all_fine Examples.two_paragraphs
           "voice" "model" "key-two" fresh_world).
Proof.
  apply (api_key_stays_in_requests
           Examples.cfg0 Examples.all_fine "voice" "model" "key-one" "key-two"
           (fun _ _ => eq_refl) Examples.two_paragraphs fresh_world fresh_world).
  repeat split.
Defined.

(** Secrets without an API key, Generate pressed. *)
Lemma no_api_key_in_secrets_sends_nothing_witness :
  app Examples.secrets_without_key Examples.all_fine (Some Examples.two_paragraphs)
    (Some "voice"%string) None true no_output fresh_world
  = Rendered (Returns no_output,
              shown fresh_world [Loaded (List.length Examples.two_paragraphs);
                                 ApiKeyRequired]).
Proof.
  apply (no_api_key_in_secrets_sends_nothing
           Examples.secrets_without_key Examples.all_fine Examples.cfg0).
  - reflexivity.
  - split; left; reflexivity.
Defined.
